(** * Virtual consumer interview toolkit: workflow state machine and interview turn loop

    A shallow embedding of the orchestration core of the toolkit
    ([App.tsx], [components/ChatInterface.tsx], [components/GuideReview.tsx],
    [services/geminiService.ts], [types.ts]) together with the properties the
    specification states about it.

    Conventions.
    - A JavaScript string is a Rocq [string] holding its UTF-8 encoding.
    - A settled [Promise<T>] is a [result T]: [Ok v] when it resolves with [v],
      [Err e] when it rejects with [e].
    - [new Date()] is a number supplied by the environment.
    - The generative backend is an oracle: for each request it gives the
      outcome of the n-th attempt. *)

From Stdlib Require Import ZArith String Ascii List Bool Lia.
From Stdlib Require Import DecimalString DecimalZ DecimalPos.
From stdpp Require Import base decidable option list strings.
Import ListNotations.
Local Open Scope string_scope.
Local Open Scope Z_scope.

(** ** JavaScript values and helpers *)

Module Js.

(** What a rejected promise carries: the fields of the error object that the
    code inspects ([error?.status], [error?.code], [error?.message]). *)
Record JsError : Type := mkError {
  status : option Z;
  code : option Z;
  message : option string
}.

Inductive result (A : Type) : Type :=
| Ok (a : A)
| Err (e : JsError).
Arguments Ok {A} a.
Arguments Err {A} e.

(** The [TypeError] raised by a property access on [null] or by calling a
    method that the receiver does not have. *)
Definition typeError : JsError :=
  mkError None None (Some "TypeError").

(** [String.prototype.includes]. *)
Fixpoint includes (s needle : string) : bool :=
  String.prefix needle s ||
  match s with
  | EmptyString => false
  | String _ s' => includes s' needle
  end.

(** [x === 429] for an optional numeric field. *)
Definition is429 (x : option Z) : bool :=
  match x with
  | Some n => n =? 429
  | None => false
  end.

(** [m?.includes(needle)] used as a condition. *)
Definition opt_includes (m : option string) (needle : string) : bool :=
  match m with
  | Some s => includes s needle
  | None => false
  end.

(** [s || d] for an optional string: [undefined] and the empty string are
    falsy. *)
Definition str_or (s : option string) (d : string) : string :=
  match s with
  | Some EmptyString => d
  | Some t => t
  | None => d
  end.

(** *** Whitespace and [String.prototype.trim]

    [trim] removes the code points of the ECMAScript [WhiteSpace] and
    [LineTerminator] productions from both ends.  On the UTF-8 encoding they
    are the following byte sequences. *)

Definition byte (a : ascii) : N := N_of_ascii a.

(** U+0009 to U+000D and U+0020. *)
Definition ws1 (a : ascii) : bool :=
  ((9 <=? byte a) && (byte a <=? 13) || (byte a =? 32))%N.

(** U+00A0. *)
Definition ws2 (a b : ascii) : bool :=
  ((byte a =? 194) && (byte b =? 160))%N.

(** U+1680, U+2000 to U+200A, U+2028, U+2029, U+202F, U+205F, U+3000 and
    U+FEFF. *)
Definition ws3 (a b c : ascii) : bool :=
  ((byte a =? 225) && (byte b =? 154) && (byte c =? 128)
   || (byte a =? 226) && (byte b =? 128) &&
        ((128 <=? byte c) && (byte c <=? 138) || (byte c =? 168) ||
         (byte c =? 169) || (byte c =? 175))
   || (byte a =? 226) && (byte b =? 129) && (byte c =? 159)
   || (byte a =? 227) && (byte b =? 128) && (byte c =? 128)
   || (byte a =? 239) && (byte b =? 187) && (byte c =? 191))%N.

Fixpoint trimStart_bytes (l : list ascii) : list ascii :=
  match l with
  | a :: l1 =>
      if ws1 a then trimStart_bytes l1 else
      match l1 with
      | b :: l2 =>
          if ws2 a b then trimStart_bytes l2 else
          match l2 with
          | c :: l3 => if ws3 a b c then trimStart_bytes l3 else l
          | [] => l
          end
      | [] => l
      end
  | [] => []
  end.

(** The same scan on the reversed byte sequence: the last byte comes first. *)
Fixpoint trimEnd_rev (l : list ascii) : list ascii :=
  match l with
  | c :: l1 =>
      if ws1 c then trimEnd_rev l1 else
      match l1 with
      | b :: l2 =>
          if ws2 b c then trimEnd_rev l2 else
          match l2 with
          | a :: l3 => if ws3 a b c then trimEnd_rev l3 else l
          | [] => l
          end
      | [] => l
      end
  | [] => []
  end.

Definition trimEnd_bytes (l : list ascii) : list ascii :=
  rev (trimEnd_rev (rev l)).

Definition trim (s : string) : string :=
  string_of_list_ascii (trimEnd_bytes (trimStart_bytes (list_ascii_of_string s))).

(** A byte sequence that holds white space only: a sequence of white-space
    code points. *)
Inductive Blank : list ascii -> Prop :=
| Blank_nil : Blank []
| Blank_1 a l : ws1 a = true -> Blank l -> Blank (a :: l)
| Blank_2 a b l : ws2 a b = true -> Blank l -> Blank (a :: b :: l)
| Blank_3 a b c l : ws3 a b c = true -> Blank l -> Blank (a :: b :: c :: l).

(** A string that is empty or holds white space only. *)
Definition whitespace_only (s : string) : Prop :=
  Blank (list_ascii_of_string s).

(** *** JSON values, as [JSON.parse] returns them *)

#[warnings="-register-all"]
Inductive json : Type :=
| JNull
| JBool (b : bool)
| JNum (n : Z)
| JStr (s : string)
| JArr (items : list json)
| JObj (fields : list (string * json)).

(** [ToBoolean]. *)
Definition truthy (j : json) : bool :=
  match j with
  | JNull => false
  | JBool b => b
  | JNum n => negb (n =? 0)
  | JStr s => negb (String.eqb s "")
  | JArr _ | JObj _ => true
  end.

Fixpoint assoc (k : string) (fields : list (string * json)) : option json :=
  match fields with
  | [] => None
  | (k', v) :: rest => if String.eqb k k' then Some v else assoc k rest
  end.

(** [j.k] for a parsed value [j] and one of the property names the code
    reads (none of them is [length]): [undefined] is [None]; the access
    throws on [null]. *)
Definition get_prop (j : json) (k : string) : result (option json) :=
  match j with
  | JNull => Err typeError
  | JObj fields => Ok (assoc k fields)
  | _ => Ok None
  end.

(** [x || d] for an optional JSON value. *)
Definition json_or (x : option json) (d : json) : json :=
  match x with
  | Some j => if truthy j then j else d
  | None => d
  end.

(** What the code takes from the JavaScript runtime without defining it:
    [JSON.parse] ([None] when it throws) and the three uses of regular
    expressions and [substring] in persona generation. *)
Class Runtime : Type := {
  JSON_parse : string -> option json;
  (** capture group 1 of the match of the fenced json block pattern *)
  match_json_fence : string -> option string;
  (** capture group 1 of the match of the first-level heading pattern *)
  match_heading : string -> option string;
  (** [s.substring(0, 200)] *)
  substring_0_200 : string -> string
}.

End Js.
Export Js.

(** ** The data model ([types.ts]) *)

Module Types.

Inductive AppStep : Type :=
| SETUP | CLARIFYING | RESEARCHING | PREVIEW | GUIDE_INPUT | GUIDE_REVIEW
| MODE_SELECTION | INTERVIEW | SUMMARY.

Inductive InterviewMode : Type := MANUAL | AUTO.

Inductive MaterialType : Type := MatText | MatFile.

Record ReferenceMaterial : Type := {
  id : string;
  type : MaterialType;
  mat_name : string;
  content : string;
  mimeType : option string
}.

Record ResearchConfig : Type := {
  industry : string;
  targetAudience : string;
  clarifications : option (list string);
  objectives : option string;
  userQuestions : option string;
  referenceMaterials : option (list ReferenceMaterial)
}.

Record ClarifyingQuestion : Type := {
  question : string;
  options : list string
}.

(** [scores] is declared as [PersonaDimensionScores] (four numbers); the
    value stored there comes from the parsed backend reply unchecked, so the
    field holds a JSON value. *)
Record PersonaProfile : Type := {
  rawMarkdown : string;
  name : string;
  summary : string;
  imageUrl : option string;
  scores : option json
}.

Inductive Role : Type := user | model.

Record ChatMessage : Type := {
  role : Role;
  text : string;
  timestamp : Z;
  isAiInterviewer : option bool
}.

Record GroundingSource : Type := {
  uri : string;
  title : string
}.

Record InterviewSummary : Type := {
  keyInsights : string;
  painPoints : string;
  wantsNeeds : string;
  verdict : string
}.

#[global] Instance AppStep_eq_dec : EqDecision AppStep.
Proof. solve_decision. Defined.
#[global] Instance InterviewMode_eq_dec : EqDecision InterviewMode.
Proof. solve_decision. Defined.
#[global] Instance Role_eq_dec : EqDecision Role.
Proof. solve_decision. Defined.
#[global] Instance ChatMessage_eq_dec : EqDecision ChatMessage.
Proof. solve_decision. Defined.

(** The four dimensions of [PersonaDimensionScores]. *)
Definition dimensions : list string :=
  ["demographics"; "psychographics"; "behaviors"; "needs"].

(** [profile.scores?.[dim]]. *)
Definition score (profile : PersonaProfile) (dim : string) : option json :=
  match scores profile with
  | Some (JObj fields) => assoc dim fields
  | _ => None
  end.

End Types.
Export Types.

(** ** The service layer ([services/geminiService.ts]) *)

Module Service.

(** What an execution of the retry helper does besides returning: the
    attempts it makes and the timers it waits for. *)
Inductive Effect : Type :=
| Invoke (attempt : nat)
| Sleep (ms : Z).

Definition isRateLimit (error : JsError) : bool :=
  is429 (status error) || is429 (code error) ||
  opt_includes (message error) "429" || opt_includes (message error) "quota".

(** [runWithRetry(operation, retries, delay)]; [operation n] is the outcome of
    the call of [operation()] that [n] calls precede. *)
Fixpoint runWithRetry_from {T : Type} (operation : nat -> result T)
    (retries : nat) (delay : Z) (n : nat) : result T * list Effect :=
  match operation n with
  | Ok v => (Ok v, [Invoke n])
  | Err error =>
      match isRateLimit error, retries with
      | true, S retries' =>
          let (r, tr) := runWithRetry_from operation retries' (delay * 2) (S n) in
          (r, Invoke n :: Sleep delay :: tr)
      | _, _ => (Err error, [Invoke n])
      end
  end.

Definition runWithRetry {T : Type} (operation : nat -> result T)
    (retries : nat) (delay : Z) : result T * list Effect :=
  runWithRetry_from operation retries delay 0.

(** The part of a [GenerateContentResponse] that the code reads. *)
Record Response : Type := {
  (** [response.text] *)
  response_text : option string;
  (** [chunk.web] for each chunk of
      [response.candidates?.[0]?.groundingMetadata?.groundingChunks || []] *)
  groundingChunks : list (option GroundingSource);
  (** [part.inlineData?.data] for each part of
      [response.candidates?.[0]?.content?.parts] *)
  inlineParts : option (list (option string))
}.

(** The requests sent with [ai.models.generateContent]: the prompt and the
    configuration are determined by the arguments of the calling function. *)
Inductive Request : Type :=
| ReqAnalyze (industry targetAudience : string)
| ReqPersonaText (industry targetAudience : string)
    (clarifications : list string) (materials : list ReferenceMaterial)
| ReqPersonaImage (name industry : string)
| ReqGuide (industry : string) (profile : PersonaProfile)
    (objectives userQuestions : string)
| ReqModerator (history : list ChatMessage) (guide : list string)
    (profile : PersonaProfile)
| ReqSummary (profile : PersonaProfile) (industry : string)
    (messages : list ChatMessage).

(** The backend: the outcome of each attempt of each request. *)
Definition Backend : Type := Request -> nat -> result Response.

#[global] Instance result_ret : MRet result := fun _ v => Ok v.
#[global] Instance result_bind : MBind result := fun _ _ f m =>
  match m with
  | Ok v => f v
  | Err e => Err e
  end.

Definition syntaxError : JsError :=
  mkError None None (Some "SyntaxError").

(** [JSON.parse(s)] as a computation that may throw. *)
Definition parse `{Runtime} (s : string) : result json :=
  match JSON_parse s with
  | Some j => Ok j
  | None => Err syntaxError
  end.

Definition defaultScores : json :=
  JObj [("demographics", JNum 3); ("psychographics", JNum 3);
        ("behaviors", JNum 3); ("needs", JNum 3)].

(** The first part with a truthy [inlineData.data]. *)
Fixpoint firstInlineData (parts : list (option string)) : option string :=
  match parts with
  | [] => None
  | Some data :: rest =>
      if String.eqb data "" then firstInlineData rest else Some data
  | None :: rest => firstInlineData rest
  end.

(** The [jsonString] of [generatePersonaProfile]: the text of the reply, or
    what its fenced block holds. *)
Definition jsonStringOf `{Runtime} (response : Response) : string :=
  let jsonString := str_or (response_text response) "{}" in
  match match_json_fence jsonString with
  | Some captured => captured
  | None => jsonString
  end.

(** The [result] of [generatePersonaProfile]: the parsed reply, or the raw
    text with default scores when [JSON.parse] throws. *)
Definition resultOf `{Runtime} (response : Response) : json :=
  match JSON_parse (jsonStringOf response) with
  | Some parsed => parsed
  | None =>
      JObj [("markdownProfile", JStr (str_or (response_text response) "# 生成失败"));
            ("scores", defaultScores)]
  end.

Definition generatePersonaProfile `{Runtime} (ai : Backend)
    (industry targetAudience : string) (clarifications : list string)
    (materials : list ReferenceMaterial)
    : result (PersonaProfile * list GroundingSource) :=
  response ← fst (runWithRetry
    (ai (ReqPersonaText industry targetAudience clarifications materials)) 5 5000);
  let result := resultOf response in
  markdownProfile ← get_prop result "markdownProfile";
  let markdown := json_or markdownProfile (JStr "# 生成失败") in
  resultScores ← get_prop result "scores";
  let scores := json_or resultScores defaultScores in
  let sources := omap (fun web => web) (groundingChunks response) in
  match markdown with
  | JStr markdown =>
      let name :=
        match match_heading markdown with
        | Some captured => trim captured
        | None => "消费者"
        end in
      let summary := substring_0_200 markdown ++ "..." in
      let imageData :=
        match fst (runWithRetry (ai (ReqPersonaImage name industry)) 2 5000) with
        | Ok imageResponse =>
            match inlineParts imageResponse with
            | Some parts => firstInlineData parts
            | None => None
            end
        | Err imgError => None
        end in
      Ok ({| rawMarkdown := markdown; name := name; summary := summary;
             scores := Some scores; imageUrl := imageData |}, sources)
  | _ => Err typeError   (* [markdown.match] is not a function *)
  end.

(** The cast of a parsed value to [string[]].  The response schema of the
    request constrains it to an array of strings; entries of another shape
    have no place in the data model and are left out. *)
Definition as_string_array (j : json) : list string :=
  match j with
  | JArr items =>
      omap (fun item => match item with JStr q => Some q | _ => None end) items
  | _ => []
  end.

Definition fallbackGuide : list string :=
  ["请介绍一下您自己。"; "您目前使用什么产品？"; "您最大的痛点是什么？"].

Definition generateDiscussionGuide `{Runtime} (ai : Backend)
    (industry : string) (profile : PersonaProfile)
    (objectives userQuestions : string) : result (list string) :=
  match
    response ← fst (runWithRetry
      (ai (ReqGuide industry profile objectives userQuestions)) 5 4000);
    res ← parse (str_or (response_text response) "{}");
    questions ← get_prop res "questions";
    Ok (as_string_array (json_or questions (JArr [])))
  with
  | Ok guide => Ok guide
  | Err e => Ok fallbackGuide
  end.

(** [text || null] *)
Definition or_null (text : option string) : option string :=
  match text with
  | Some EmptyString => None
  | Some t => Some t
  | None => None
  end.

Definition getAIInterviewerNextQuestion (ai : Backend)
    (history : list ChatMessage) (guide : list string)
    (profile : PersonaProfile) : result (option string) :=
  response ← fst (runWithRetry (ai (ReqModerator history guide profile)) 5 4000);
  let text := trim <$> response_text response in
  if opt_includes text "INTERVIEW_COMPLETE" then Ok None
  else Ok (or_null text).

End Service.
Export Service.

(** ** The workflow state machine ([App.tsx]) *)

Module App.

(** The chat object that [createInterviewSession] returns: a delivery channel
    scoped to a persona and an industry. *)
Record Chat : Type := {
  chat_profile : PersonaProfile;
  chat_industry : string
}.

(** The functions imported from the service layer, as the handlers see
    them: each call settles in a value or an error. *)
Class Services : Type := {
  analyzeRequirements :
    string -> string -> result (option (list ClarifyingQuestion));
  generatePersonaProfile :
    string -> string -> list string -> list ReferenceMaterial ->
    result (PersonaProfile * list GroundingSource);
  generateDiscussionGuide :
    string -> PersonaProfile -> string -> string -> result (list string);
  createInterviewSession : PersonaProfile -> string -> result Chat;
  generateInterviewSummary :
    PersonaProfile -> string -> list ChatMessage -> result InterviewSummary
}.

(** The [useState] cells of the component. *)
Record State : Type := mkState {
  step : AppStep;
  config : option ResearchConfig;
  clarificationQuestions : list ClarifyingQuestion;
  persona : option PersonaProfile;
  sources : list GroundingSource;
  discussionGuide : list string;
  interviewMode : InterviewMode;
  chatSession : option Chat;
  chatHistory : list ChatMessage;
  summary : option InterviewSummary;
  error : option string;
  isLoadingGuide : bool
}.

Definition initial : State :=
  {| step := SETUP; config := None; clarificationQuestions := [];
     persona := None; sources := []; discussionGuide := [];
     interviewMode := MANUAL; chatSession := None; chatHistory := [];
     summary := None; error := None; isLoadingGuide := false |}.

Definition setStep_state (v : AppStep) (s : State) : State :=
  mkState v (config s) (clarificationQuestions s) (persona s) (sources s) (discussionGuide s)
    (interviewMode s) (chatSession s) (chatHistory s) (summary s) (error s) (isLoadingGuide s).

Definition setConfig_state (v : option ResearchConfig) (s : State) : State :=
  mkState (step s) v (clarificationQuestions s) (persona s) (sources s) (discussionGuide s)
    (interviewMode s) (chatSession s) (chatHistory s) (summary s) (error s) (isLoadingGuide s).

Definition setClarificationQuestions_state (v : list ClarifyingQuestion) (s : State) : State :=
  mkState (step s) (config s) v (persona s) (sources s) (discussionGuide s)
    (interviewMode s) (chatSession s) (chatHistory s) (summary s) (error s) (isLoadingGuide s).

Definition setPersona_state (v : option PersonaProfile) (s : State) : State :=
  mkState (step s) (config s) (clarificationQuestions s) v (sources s) (discussionGuide s)
    (interviewMode s) (chatSession s) (chatHistory s) (summary s) (error s) (isLoadingGuide s).

Definition setSources_state (v : list GroundingSource) (s : State) : State :=
  mkState (step s) (config s) (clarificationQuestions s) (persona s) v (discussionGuide s)
    (interviewMode s) (chatSession s) (chatHistory s) (summary s) (error s) (isLoadingGuide s).

Definition setDiscussionGuide_state (v : list string) (s : State) : State :=
  mkState (step s) (config s) (clarificationQuestions s) (persona s) (sources s) v
    (interviewMode s) (chatSession s) (chatHistory s) (summary s) (error s) (isLoadingGuide s).

Definition setInterviewMode_state (v : InterviewMode) (s : State) : State :=
  mkState (step s) (config s) (clarificationQuestions s) (persona s) (sources s) (discussionGuide s) v (chatSession s) (chatHistory s) (summary s) (error s) (isLoadingGuide s).

Definition setChatSession_state (v : option Chat) (s : State) : State :=
  mkState (step s) (config s) (clarificationQuestions s) (persona s) (sources s) (discussionGuide s)
    (interviewMode s) v (chatHistory s) (summary s) (error s) (isLoadingGuide s).

Definition setChatHistory_state (v : list ChatMessage) (s : State) : State :=
  mkState (step s) (config s) (clarificationQuestions s) (persona s) (sources s) (discussionGuide s)
    (interviewMode s) (chatSession s) v (summary s) (error s) (isLoadingGuide s).

Definition setSummary_state (v : option InterviewSummary) (s : State) : State :=
  mkState (step s) (config s) (clarificationQuestions s) (persona s) (sources s) (discussionGuide s)
    (interviewMode s) (chatSession s) (chatHistory s) v (error s) (isLoadingGuide s).

Definition setError_state (v : option string) (s : State) : State :=
  mkState (step s) (config s) (clarificationQuestions s) (persona s) (sources s) (discussionGuide s)
    (interviewMode s) (chatSession s) (chatHistory s) (summary s) v (isLoadingGuide s).

Definition setIsLoadingGuide_state (v : bool) (s : State) : State :=
  mkState (step s) (config s) (clarificationQuestions s) (persona s) (sources s) (discussionGuide s)
    (interviewMode s) (chatSession s) (chatHistory s) (summary s) (error s) v.

(** What a handler does that is visible from outside: the stages it
    enters and the services it calls, in order. *)
Inductive Event : Type :=
| Entered (s : AppStep)
| CalledAnalyzeRequirements (industry targetAudience : string)
| CalledGeneratePersonaProfile (industry targetAudience : string)
    (clarifications : list string) (materials : list ReferenceMaterial)
| CalledGenerateDiscussionGuide (industry : string) (profile : PersonaProfile)
    (objectives userQuestions : string)
| CalledCreateInterviewSession (profile : PersonaProfile) (industry : string)
| CalledGenerateInterviewSummary (profile : PersonaProfile) (industry : string)
    (messages : list ChatMessage).

(** A handler is a computation on the state and the log that returns or
    throws. *)
Definition M (A : Type) : Type := State * list Event -> result A * (State * list Event).

#[global] Instance M_ret : MRet M := fun _ v w => (Ok v, w).
#[global] Instance M_bind : MBind M := fun _ _ f m w =>
  match m w with
  | (Ok v, w') => f v w'
  | (Err e, w') => (Err e, w')
  end.

Definition update (f : State -> State) : M unit :=
  fun w => (Ok tt, (f (fst w), snd w)).
Definition emit (ev : Event) : M unit :=
  fun w => (Ok tt, (fst w, (snd w ++ [ev])%list)).
(** [await] of a service call that settles in [r]. *)
Definition await {A : Type} (ev : Event) (r : result A) : M A :=
  fun w => (r, (fst w, (snd w ++ [ev])%list)).
(** [try { body } catch (err) { handler }] *)
Definition try_catch {A : Type} (body : M A) (handler : JsError -> M A) : M A :=
  fun w =>
    match body w with
    | (Ok v, w') => (Ok v, w')
    | (Err e, w') => handler e w'
    end.
(** [try { body } finally { final }] *)
Definition try_finally {A : Type} (body : M A) (final : M unit) : M A :=
  fun w =>
    match body w with
    | (r, w') =>
        match final w' with
        | (Ok _, w'') => (r, w'')
        | (Err e, w'') => (Err e, w'')
        end
    end.

Definition setStep (v : AppStep) : M unit :=
  update (setStep_state v) ;; emit (Entered v).
Definition setConfig v : M unit := update (setConfig_state v).
Definition setClarificationQuestions v : M unit :=
  update (setClarificationQuestions_state v).
Definition setPersona v : M unit := update (setPersona_state v).
Definition setSources v : M unit := update (setSources_state v).
Definition setDiscussionGuide v : M unit := update (setDiscussionGuide_state v).
Definition setInterviewMode v : M unit := update (setInterviewMode_state v).
Definition setChatSession v : M unit := update (setChatSession_state v).
Definition setChatHistory v : M unit := update (setChatHistory_state v).
Definition setSummary v : M unit := update (setSummary_state v).
Definition setError v : M unit := update (setError_state v).
Definition setIsLoadingGuide v : M unit := update (setIsLoadingGuide_state v).

(** [materials || []] *)
Definition or_empty {A : Type} (l : option (list A)) : list A :=
  match l with
  | Some l' => l'
  | None => []
  end.

Section Handlers.
Context `{Services}.

Definition executePersonaGeneration (industry audience : string)
    (clarifications : list string) (materials : list ReferenceMaterial)
    : M unit :=
  '(profile, fetchedSources) ←
    await (CalledGeneratePersonaProfile industry audience clarifications materials)
          (generatePersonaProfile industry audience clarifications materials);
  setPersona (Some profile) ;;
  setSources fetchedSources ;;
  setStep PREVIEW.

(** 1. Initial research input. *)
Definition handleInitialSubmit (inputConfig : ResearchConfig) : M unit :=
  setConfig (Some inputConfig) ;;
  setStep RESEARCHING ;;
  setError None ;;
  try_catch
    (questions ←
       await (CalledAnalyzeRequirements (industry inputConfig)
                (targetAudience inputConfig))
             (analyzeRequirements (industry inputConfig)
                (targetAudience inputConfig));
     match questions with
     | Some (q :: qs) =>
         setClarificationQuestions (q :: qs) ;;
         setStep CLARIFYING
     | _ =>
         executePersonaGeneration (industry inputConfig)
           (targetAudience inputConfig) []
           (or_empty (referenceMaterials inputConfig))
     end)
    (fun err =>
       setError (Some "分析需求时出错，请重试。") ;;
       setStep SETUP).

(** 2. Clarification input.  [s] is the state the handler closes over. *)
Definition handleClarificationSubmit (s : State) (answers : list string)
    : M unit :=
  match config s with
  | None => mret tt
  | Some config =>
      setStep RESEARCHING ;;
      try_catch
        (executePersonaGeneration (industry config) (targetAudience config)
           answers (or_empty (referenceMaterials config)))
        (fun err =>
           setError (Some "生成画像失败，请重试。") ;;
           setStep SETUP)
  end.

(** 3. Confirm profile. *)
Definition handleConfirmProfile : M unit :=
  setStep GUIDE_INPUT.

(** 4. Generate guide. *)
Definition handleGenerateGuide (s : State) (objectives userQuestions : string)
    : M unit :=
  match persona s, config s with
  | Some persona, Some config =>
      setIsLoadingGuide true ;;
      try_finally
        (try_catch
           (guide ←
              await (CalledGenerateDiscussionGuide (industry config) persona
                       objectives userQuestions)
                    (generateDiscussionGuide (industry config) persona
                       objectives userQuestions);
            setDiscussionGuide guide ;;
            setStep GUIDE_REVIEW)
           (fun e => setError (Some "生成提纲失败")))
        (setIsLoadingGuide false)
  | _, _ => mret tt
  end.

(** 5. Confirm guide. *)
Definition handleConfirmGuide (finalGuide : list string) : M unit :=
  setDiscussionGuide finalGuide ;;
  setStep MODE_SELECTION.

(** 6. Start interview. *)
Definition startInterview (s : State) (mode : InterviewMode) : M unit :=
  match persona s, config s with
  | Some persona, Some config =>
      setInterviewMode mode ;;
      try_catch
        (session ←
           await (CalledCreateInterviewSession persona (industry config))
                 (createInterviewSession persona (industry config));
         setChatSession (Some session) ;;
         setStep INTERVIEW)
        (fun err => setError (Some "无法初始化访谈会话。"))
  | _, _ => mret tt
  end.

(** 7. End interview. *)
Definition handleEndSession (s : State) (messages : list ChatMessage)
    : M unit :=
  match persona s, config s with
  | Some persona, Some config =>
      setChatHistory messages ;;
      setStep RESEARCHING ;;
      try_catch
        (summaryData ←
           await (CalledGenerateInterviewSummary persona (industry config)
                    messages)
                 (generateInterviewSummary persona (industry config) messages);
         setSummary (Some summaryData) ;;
         setStep SUMMARY)
        (fun err =>
           setError (Some "生成总结报告失败。") ;;
           setStep INTERVIEW)
  | _, _ => mret tt
  end.

Definition handleReset : M unit :=
  setStep SETUP ;;
  setConfig None ;;
  setPersona None ;;
  setChatSession None ;;
  setSources [] ;;
  setClarificationQuestions [] ;;
  setSummary None ;;
  setChatHistory [] ;;
  setDiscussionGuide [] ;;
  setError None.

End Handlers.

(** Running a handler from a state: the state it leaves and its log. *)
Definition run (s : State) (h : State -> M unit) : State * list Event :=
  snd (h s (s, [])).

(** The handlers that the rendered components are given. *)
Inductive Action : Type :=
| InitialSubmit (inputConfig : ResearchConfig)
| ClarificationSubmit (answers : list string)
| ConfirmProfile
| GenerateGuide (objectives userQuestions : string)
| ConfirmGuide (finalGuide : list string)
| StartInterview (mode : InterviewMode)
| SwitchToManual
| EndSession (messages : list ChatMessage)
| Reset.

Definition handler `{Services} (a : Action) (s : State) : M unit :=
  match a with
  | InitialSubmit inputConfig => handleInitialSubmit inputConfig
  | ClarificationSubmit answers => handleClarificationSubmit s answers
  | ConfirmProfile => handleConfirmProfile
  | GenerateGuide objectives userQuestions =>
      handleGenerateGuide s objectives userQuestions
  | ConfirmGuide finalGuide => handleConfirmGuide finalGuide
  | StartInterview mode => startInterview s mode
  | SwitchToManual => setInterviewMode MANUAL
  | EndSession messages => handleEndSession s messages
  | Reset => handleReset
  end.

(** The state after an action, the services behaving as [svc] while its
    handler runs. *)
Definition after (svc : Services) (s : State) (a : Action) : State :=
  fst (run s (handler a)).

(** The log of the handler of an action. *)
Definition trace (svc : Services) (s : State) (a : Action) : list Event :=
  snd (run s (handler a)).

(** The states of a session: the initial one and those that handlers lead
    to, in whatever order they are invoked and whatever the services
    answer. *)
Inductive reachable : State -> Prop :=
| reachable_initial : reachable initial
| reachable_after (svc : Services) (s : State) (a : Action) :
    reachable s -> reachable (after svc s a).

(** The stages a log goes through. *)
Definition stages (log : list Event) : list AppStep :=
  omap (fun ev => match ev with Entered st => Some st | _ => None end) log.

(** The persona generations a log asks for: the clarifications of each. *)
Definition personaCalls (log : list Event) : list (list string) :=
  omap (fun ev =>
          match ev with
          | CalledGeneratePersonaProfile _ _ clarifications _ =>
              Some clarifications
          | _ => None
          end) log.

End App.

(** The services of [services/geminiService.ts] on a runtime and a backend;
    those that are not modelled here are taken from [other]. *)
Definition geminiService `{Runtime} (ai : Backend) (other : App.Services)
    : App.Services :=
  {| App.analyzeRequirements := @App.analyzeRequirements other;
     App.generatePersonaProfile := Service.generatePersonaProfile ai;
     App.generateDiscussionGuide := Service.generateDiscussionGuide ai;
     App.createInterviewSession := @App.createInterviewSession other;
     App.generateInterviewSummary := @App.generateInterviewSummary other |}.

(** ** Guide review ([components/GuideReview.tsx]) *)

Module GuideReview.

(** [next[idx] = newVal] on a copy; [idx] is an index of the rendered list. *)
Definition handleEdit (questions : list string) (idx : nat) (newVal : string)
    : list string :=
  <[idx := newVal]> questions.

Definition handleDelete (questions : list string) (idx : nat) : list string :=
  delete idx questions.

Definition handleAdd (questions : list string) : list string :=
  (questions ++ [""])%list.

(** The argument of [onConfirm] when the confirm button is clicked. *)
Definition confirmed (questions : list string) : list string :=
  List.filter (fun q => (0 <? String.length (trim q))%nat) questions.

(** The click on the confirm button, with [onConfirm] bound to
    [handleConfirmGuide]. *)
Definition confirm (questions : list string) : App.M unit :=
  App.handleConfirmGuide (confirmed questions).

End GuideReview.

(** ** The interview turn loop ([components/ChatInterface.tsx])

    The component is event driven: an [async] function runs until its next
    [await] and is resumed when the awaited promise settles.  The state holds
    the [useState] cells, the [mode] property (owned by the parent and set to
    [MANUAL] by [onSwitchToManual]) and the suspended continuations. *)

Module ChatInterface.

Inductive ModeratorStatus : Type := Idle | Thinking | Done.

(** A continuation suspended at an [await]. *)
Inductive Task : Type :=
(** [startConversation], at [chatSession.sendMessage] *)
| AwaitGreeting
(** [runAiModeratorLoop], at the pacing timer; [history] is the [messages]
    of the render whose effect started the turn *)
| AwaitPacing (ms : Z) (history : list ChatMessage)
(** [runAiModeratorLoop], at [getAIInterviewerNextQuestion(messages, guide,
    profile)] *)
| AwaitModerator (history : list ChatMessage) (guide : list string)
    (profile : PersonaProfile)
(** [runAiModeratorLoop], at [chatSession.sendMessage] *)
| AwaitPersonaReply (nextQuestion : string)
(** [runAiModeratorLoop], at the cooldown timer of the [catch] block *)
| AwaitCooldown (ms : Z)
(** [handleManualSend], at [chatSession.sendMessage] *)
| AwaitManualReply (userMsg : string).

Record State : Type := mkState {
  messages : list ChatMessage;
  input : string;
  isTyping : bool;
  aiModeratorStatus : ModeratorStatus;
  retryTrigger : nat;
  hasStarted : bool;
  mode : InterviewMode;
  pending : list Task
}.

Definition setMessages (v : list ChatMessage) (s : State) : State :=
  mkState v (input s) (isTyping s) (aiModeratorStatus s)
    (retryTrigger s) (hasStarted s) (mode s) (pending s).

Definition setInput (v : string) (s : State) : State :=
  mkState (messages s) v (isTyping s) (aiModeratorStatus s)
    (retryTrigger s) (hasStarted s) (mode s) (pending s).

Definition setIsTyping (v : bool) (s : State) : State :=
  mkState (messages s) (input s) v (aiModeratorStatus s)
    (retryTrigger s) (hasStarted s) (mode s) (pending s).

Definition setAiModeratorStatus (v : ModeratorStatus) (s : State) : State :=
  mkState (messages s) (input s) (isTyping s) v
    (retryTrigger s) (hasStarted s) (mode s) (pending s).

Definition setRetryTrigger (v : nat) (s : State) : State :=
  mkState (messages s) (input s) (isTyping s) (aiModeratorStatus s) v (hasStarted s) (mode s) (pending s).

Definition setHasStarted (v : bool) (s : State) : State :=
  mkState (messages s) (input s) (isTyping s) (aiModeratorStatus s)
    (retryTrigger s) v (mode s) (pending s).

Definition setMode (v : InterviewMode) (s : State) : State :=
  mkState (messages s) (input s) (isTyping s) (aiModeratorStatus s)
    (retryTrigger s) (hasStarted s) v (pending s).

Definition setPending (v : list Task) (s : State) : State :=
  mkState (messages s) (input s) (isTyping s) (aiModeratorStatus s)
    (retryTrigger s) (hasStarted s) (mode s) v.

(** What the environment does. *)
Inductive Event : Type :=
(** the user edits the input field *)
| ChangeInput (v : string)
(** the user submits the form: [handleManualSend] *)
| Submit (now : Z)
(** the user clicks one of the take-over buttons: [onSwitchToManual] *)
| SwitchToManual
(** the timer awaited by task [i] fires *)
| TimerFired (i : nat)
(** [chatSession.sendMessage] awaited by task [i] settles; a resolved
    value is the [text] of the response *)
| ChatReplied (i : nat) (r : result (option string)) (now : Z)
(** the moderator call awaited by task [i] settles, the backend behaving
    as [ai] during the call *)
| ModeratorAnswered (i : nat) (ai : Backend) (now : Z).

Definition modelMessage (text : string) (now : Z) : ChatMessage :=
  {| role := model; text := text; timestamp := now; isAiInterviewer := None |}.

Definition userMessage (text : string) (now : Z) (isAi : bool) : ChatMessage :=
  {| role := user; text := text; timestamp := now; isAiInterviewer := Some isAi |}.

(** [e?.status === 429 || e?.message?.includes('429')] *)
Definition isRateLimit429 (e : JsError) : bool :=
  is429 (status e) || opt_includes (message e) "429".

(** The cells and properties in the dependency list of the moderator effect
    that can change while the component is mounted. *)
Definition deps (s : State)
    : list ChatMessage * InterviewMode * bool * nat :=
  (messages s, mode s, isTyping s, retryTrigger s).

Definition append (m : ChatMessage) (s : State) : State :=
  setMessages (messages s ++ [m])%list s.

Definition spawn (t : Task) (s : State) : State :=
  setPending (pending s ++ [t])%list s.

Section Component.
Context (guide : list string) (profile : PersonaProfile).

(** The effect with [startConversation], up to its [await]. *)
Definition startConversation (s : State) : State :=
  if hasStarted s then s
  else spawn AwaitGreeting (setIsTyping true (setHasStarted true s)).

(** The effect with [runAiModeratorLoop], up to its first [await]. *)
Definition runAiModeratorLoop (s : State) : State :=
  match mode s with
  | MANUAL => s
  | AUTO =>
      if isTyping s then s
      else
        match last (messages s) with
        | None => s
        | Some lastMsg =>
            match role lastMsg with
            | model =>
                spawn (AwaitPacing 3000 (messages s))
                  (setAiModeratorStatus Thinking s)
            | user => s
            end
        end
  end.

(** The render after a batch of updates: the moderator effect runs again
    when one of its dependencies has changed. *)
Definition rerender (old new : State) : State :=
  if decide (deps old = deps new) then new else runAiModeratorLoop new.

Definition mount (mode : InterviewMode) : State :=
  let s0 := mkState [] "" false Idle 0 false mode [] in
  rerender s0 (startConversation s0).

Definition onSwitchToManual (s : State) : State := setMode MANUAL s.

(** [handleManualSend] up to its [await]. *)
Definition handleManualSend (now : Z) (s : State) : State :=
  if String.eqb (trim (input s)) "" || isTyping s then s
  else
    let s1 := match mode s with AUTO => onSwitchToManual s | MANUAL => s end in
    let userMsg := trim (input s) in
    spawn (AwaitManualReply userMsg)
      (setIsTyping true (append (userMessage userMsg now false) (setInput "" s1))).

(** The [catch] block of [runAiModeratorLoop], for the task at [i]. *)
Definition moderatorCatch (i : nat) (e : JsError) (s : State) : State :=
  if isRateLimit429 e then setPending (<[i := AwaitCooldown 5000]> (pending s)) s
  else setPending (delete i (pending s)) (setAiModeratorStatus Idle s).

(** The continuation of the task at [i] when what it awaits settles. *)
Definition resume (s : State) (i : nat) (t : Task) (ev : Event) : option State :=
  match t, ev with
  | AwaitGreeting, ChatReplied _ (Ok response_text) now =>
      let text := str_or response_text "你好。" in
      Some (setPending (delete i (pending s))
              (setIsTyping false (setMessages [modelMessage text now] s)))
  | AwaitGreeting, ChatReplied _ (Err err) now =>
      Some (setPending (delete i (pending s)) (setIsTyping false s))
  | AwaitPacing _ history, TimerFired _ =>
      Some (setPending (<[i := AwaitModerator history guide profile]> (pending s)) s)
  | AwaitModerator history guide profile, ModeratorAnswered _ ai now =>
      match getAIInterviewerNextQuestion ai history guide profile with
      | Ok (Some nextQuestion) =>
          if String.eqb nextQuestion "" then
            Some (setPending (delete i (pending s))
                    (onSwitchToManual (setAiModeratorStatus Done s)))
          else
            Some (setPending (<[i := AwaitPersonaReply nextQuestion]> (pending s))
                    (setIsTyping true
                       (setAiModeratorStatus Idle
                          (append (userMessage nextQuestion now true) s))))
      | Ok None =>
          Some (setPending (delete i (pending s))
                  (onSwitchToManual (setAiModeratorStatus Done s)))
      | Err e => Some (moderatorCatch i e s)
      end
  | AwaitPersonaReply nextQuestion, ChatReplied _ (Ok response_text) now =>
      let answer := str_or response_text "..." in
      Some (setPending (delete i (pending s))
              (setIsTyping false (append (modelMessage answer now) s)))
  | AwaitPersonaReply nextQuestion, ChatReplied _ (Err e) now =>
      Some (moderatorCatch i e s)
  | AwaitCooldown _, TimerFired _ =>
      Some (setPending (delete i (pending s))
              (setRetryTrigger (retryTrigger s + 1)%nat s))
  | AwaitManualReply userMsg, ChatReplied _ (Ok response_text) now =>
      let text := str_or response_text "..." in
      Some (setPending (delete i (pending s))
              (setIsTyping false (append (modelMessage text now) s)))
  | AwaitManualReply userMsg, ChatReplied _ (Err error) now =>
      Some (setPending (delete i (pending s))
              (setIsTyping false
                 (append (modelMessage "(网络波动，请重试)" now) s)))
  | _, _ => None
  end.

(** The updates that an event causes, before the next render. *)
Definition react (s : State) (ev : Event) : option State :=
  match ev with
  | ChangeInput v => Some (setInput v s)
  | Submit now => Some (handleManualSend now s)
  | SwitchToManual => Some (onSwitchToManual s)
  | TimerFired i | ChatReplied i _ _ | ModeratorAnswered i _ _ =>
      t ← pending s !! i; resume s i t ev
  end.

(** One step of the component: the updates, then the render and its
    effect. *)
Definition step (s : State) (ev : Event) : option State :=
  s' ← react s ev; Some (rerender s s').

Inductive reachable : State -> Prop :=
| reachable_mount (mode : InterviewMode) : reachable (mount mode)
| reachable_step (s s' : State) (ev : Event) :
    reachable s -> step s ev = Some s' -> reachable s'.

(** The last message is one of the persona. *)
Definition lastIsModel (s : State) : Prop :=
  exists m, last (messages s) = Some m /\ role m = model.

(** What is suspended while the mode is [AUTO]: at most one continuation,
    and a moderator turn that has started works on the current
    transcript. *)
Inductive autoShape (s : State) : Prop :=
| shape_quiet :
    pending s = [] -> autoShape s
| shape_greeting :
    pending s = [AwaitGreeting] -> autoShape s
| shape_pacing :
    pending s = [AwaitPacing 3000 (messages s)] ->
    isTyping s = false -> lastIsModel s -> autoShape s
| shape_moderator :
    pending s = [AwaitModerator (messages s) guide profile] ->
    isTyping s = false -> lastIsModel s -> autoShape s
| shape_reply (nextQuestion : string) :
    pending s = [AwaitPersonaReply nextQuestion] ->
    isTyping s = true -> autoShape s
| shape_cooldown :
    pending s = [AwaitCooldown 5000] -> autoShape s.

(** What holds of every state of the component (see
    [reachable_invariant]). *)
Record invariant (s : State) : Prop := {
  inv_greeting :
    In AwaitGreeting (pending s) ->
    pending s = [AwaitGreeting] /\ messages s = [] /\ isTyping s = true;
  inv_auto : mode s = AUTO -> autoShape s
}.

(** Running a list of events. *)
Fixpoint steps (s : State) (evs : list Event) : option State :=
  match evs with
  | [] => Some s
  | ev :: evs' => s' ← step s ev; steps s' evs'
  end.

End Component.

End ChatInterface.

(** ** Concrete sessions, used to run the definitions *)

Module Demo.

Definition config : ResearchConfig :=
  {| industry := "咖啡机"; targetAudience := "预算敏感型大学生";
     clarifications := None; objectives := None; userQuestions := None;
     referenceMaterials := None |}.

Definition profile : PersonaProfile :=
  {| rawMarkdown := "# 小林"; name := "小林"; summary := "# 小林...";
     imageUrl := None; scores := Some defaultScores |}.

Definition summary : InterviewSummary :=
  {| keyInsights := "a"; painPoints := "b"; wantsNeeds := "c"; verdict := "d" |}.

Definition serverError : JsError :=
  mkError (Some 500) None (Some "Internal error").

Definition rateLimited : JsError :=
  mkError (Some 429) None (Some "Too Many Requests").

(** Services that answer every call. *)
Definition healthy : App.Services :=
  {| App.analyzeRequirements := fun _ _ => Ok None;
     App.generatePersonaProfile := fun _ _ _ _ => Ok (profile, []);
     App.generateDiscussionGuide := fun _ _ _ _ => Ok ["您目前使用什么产品？"];
     App.createInterviewSession := fun p i =>
       Ok {| App.chat_profile := p; App.chat_industry := i |};
     App.generateInterviewSummary := fun _ _ _ => Ok summary |}.

(** The same, with persona generation failing. *)
Definition personaDown : App.Services :=
  {| App.analyzeRequirements := fun _ _ => Ok None;
     App.generatePersonaProfile := fun _ _ _ _ => Err serverError;
     App.generateDiscussionGuide := fun _ _ _ _ => Ok ["您目前使用什么产品？"];
     App.createInterviewSession := fun p i =>
       Ok {| App.chat_profile := p; App.chat_industry := i |};
     App.generateInterviewSummary := fun _ _ _ => Ok summary |}.

(** A double quote. *)
Definition dq : string := String (ascii_of_nat 34) EmptyString.
Definition quoted (s : string) : string := dq ++ s ++ dq.

(** A reply of the backend to the persona request: the JSON text
    [{ markdownProfile: '# 小林', scores: { demographics: 9,
    psychographics: 3, behaviors: 3, needs: 3 } }], with double quotes. *)
Definition reply : string :=
  "{" ++ quoted "markdownProfile" ++ ":" ++ quoted "# 小林" ++ ","
      ++ quoted "scores" ++ ":{" ++ quoted "demographics" ++ ":9,"
      ++ quoted "psychographics" ++ ":3," ++ quoted "behaviors" ++ ":3,"
      ++ quoted "needs" ++ ":3}}".

(** A runtime that is defined on the texts used here: [JSON.parse] of
    [reply] and of the empty object; the heading pattern on the one-line
    markdown texts of the examples; no text holds a JSON fence. *)
Definition runtime : Runtime :=
  {| JSON_parse := fun s =>
       if String.eqb s reply then
         Some (JObj [("markdownProfile", JStr "# 小林");
                     ("scores",
                      JObj [("demographics", JNum 9); ("psychographics", JNum 3);
                            ("behaviors", JNum 3); ("needs", JNum 3)])])
       else if String.eqb s "{}" then Some (JObj [])
       else None;
     match_json_fence := fun _ => None;
     match_heading := fun s =>
       if String.eqb s "# 小林" then Some "小林"
       else if String.eqb s "# 小林 是一位大学生" then Some "小林 是一位大学生"
       else if String.eqb s "# 生成失败" then Some "生成失败"
       else None;
     substring_0_200 := fun s => s |}.

(** A backend that answers the persona request with [reply] and fails the
    other requests. *)
Definition backendReplying : Backend := fun request attempt =>
  match request with
  | ReqPersonaText _ _ _ _ =>
      Ok {| response_text := Some reply; groundingChunks := [];
            inlineParts := None |}
  | _ => Err serverError
  end.

(** A backend that answers the persona request without text. *)
Definition backendSilent : Backend := fun request attempt =>
  match request with
  | ReqPersonaText _ _ _ _ =>
      Ok {| response_text := None; groundingChunks := []; inlineParts := None |}
  | _ => Err serverError
  end.

(** A backend that fails every attempt with a server error. *)
Definition backendDown : Backend := fun _ _ => Err serverError.

(** The session when the persona has been confirmed. *)
Definition atGuideInput : App.State :=
  App.after healthy
    (App.after healthy App.initial (App.InitialSubmit config))
    App.ConfirmProfile.

(** The session up to the interview, in automated mode. *)
Definition atInterview : App.State :=
  let s1 := App.after healthy App.initial (App.InitialSubmit config) in
  let s2 := App.after healthy s1 App.ConfirmProfile in
  let s3 := App.after healthy s2 (App.GenerateGuide "" "") in
  let s4 := App.after healthy s3 (App.ConfirmGuide ["您目前使用什么产品？"]) in
  App.after healthy s4 (App.StartInterview AUTO).

Definition transcript : list ChatMessage :=
  [ChatInterface.modelMessage "你好。" 1;
   ChatInterface.userMessage "您目前使用什么产品？" 2 true;
   ChatInterface.modelMessage "一台二手咖啡机。" 3].

(** The session after the interview has ended and the summary is shown. *)
Definition atSummary : App.State :=
  App.after healthy atInterview (App.EndSession transcript).

Definition guide : list string := ["您目前使用什么产品？"].

(** A backend that is rate limited at every attempt. *)
Definition backendBusy : Backend := fun _ _ => Err rateLimited.

(** A backend that answers every request with white space. *)
Definition backendBlank : Backend := fun _ _ =>
  Ok {| response_text := Some "  "; groundingChunks := []; inlineParts := None |}.

(** The automated interview after the greeting and the pacing delay: the
    moderator has been asked for its first question. *)
Definition moderatorAsked : ChatInterface.State :=
  match
    ChatInterface.steps guide profile (ChatInterface.mount AUTO)
      [ChatInterface.ChatReplied 0 (Ok (Some "你好，我是小林。")) 1;
       ChatInterface.TimerFired 0]
  with
  | Some s => s
  | None => ChatInterface.mount AUTO
  end.

End Demo.

(** ** The setup form ([components/SetupForm.tsx]) *)

Module SetupForm.

(** What the handlers read of a selected [File]. *)
Record File : Type := {
  file_name : string;
  file_type : string
}.

(** The [useState] cells of the form, and the file reads in progress: each
    keeps the file and the [materials] that its [onload] closes over. *)
Record State : Type := mkState {
  industry : string;
  targetAudience : string;
  materials : list ReferenceMaterial;
  reading : list (list ReferenceMaterial * File)
}.

Definition initial : State := mkState "" "" [] [].

Definition setMaterials (v : list ReferenceMaterial) (s : State) : State :=
  mkState (industry s) (targetAudience s) v (reading s).

Definition setReading (v : list (list ReferenceMaterial * File)) (s : State)
    : State :=
  mkState (industry s) (targetAudience s) (materials s) v.

(** [Date.now().toString()], for the time [now] in milliseconds. *)
Definition dateString (now : Z) : string :=
  NilZero.string_of_int (Z.to_int now).

(** [handleSubmit]: the argument of [onSubmit], when it is called. *)
Definition handleSubmit (s : State) : option ResearchConfig :=
  if negb (String.eqb (trim (industry s)) "") &&
     negb (String.eqb (trim (targetAudience s)) "")
  then Some {| Types.industry := industry s;
               Types.targetAudience := targetAudience s;
               clarifications := None; objectives := None;
               userQuestions := None;
               referenceMaterials := Some (materials s) |}
  else None.

(** The submission of the form, with [onSubmit] bound to
    [handleInitialSubmit]. *)
Definition submit `{App.Services} (s : State) : App.M unit :=
  match handleSubmit s with
  | Some inputConfig => App.handleInitialSubmit inputConfig
  | None => mret tt
  end.

(** [handleAddLink]; [url] is what [prompt] returns, [None] for [null]. *)
Definition handleAddLink (url : option string) (now : Z) (s : State) : State :=
  match url with
  | None | Some EmptyString => s
  | Some url =>
      let newMat :=
        {| id := dateString now; type := MatText;
           mat_name := if String.prefix "http" url then "链接资源" else "文本片段";
           content := url; mimeType := None |} in
      setMaterials (materials s ++ [newMat])%list s
  end.

Definition removeMaterial (target : string) (s : State) : State :=
  setMaterials
    (List.filter (fun m => negb (String.eqb (id m) target)) (materials s)) s.

(** [handleFileUpload], up to the start of the read; [file] is
    [e.target.files?.[0]]. *)
Definition handleFileUpload (file : option File) (s : State) : State :=
  match file with
  | None => s
  | Some file => setReading (reading s ++ [(materials s, file)])%list s
  end.

(** [url.split(',')[1]]: what lies between the first comma and the next one,
    [None] without a comma. *)
Fixpoint untilComma (s : string) : string :=
  match s with
  | EmptyString => EmptyString
  | String c rest =>
      if Ascii.eqb c ","%char then EmptyString else String c (untilComma rest)
  end.

Fixpoint secondField (s : string) : option string :=
  match s with
  | EmptyString => None
  | String c rest =>
      if Ascii.eqb c ","%char then Some (untilComma rest) else secondField rest
  end.

(** [reader.onload] of the read at [i], with the data URL [result].  A data
    URL has a comma; without one the content would be [undefined], which the
    data model does not hold, and there is no step. *)
Definition onload (i : nat) (result : string) (now : Z) (s : State)
    : option State :=
  '(closed, file) ← reading s !! i;
  base64String ← secondField result;
  let newFile :=
    {| id := dateString now; type := MatFile; mat_name := file_name file;
       mimeType := Some (file_type file); content := base64String |} in
  Some (setReading (delete i (reading s))
          (setMaterials (closed ++ [newFile])%list s)).

(** What a user can do to the list while a file is being read. *)
Inductive Edit : Type :=
| AddLink (url : option string) (now : Z)
| Remove (target : string).

Definition edit (s : State) (e : Edit) : State :=
  match e with
  | AddLink url now => handleAddLink url now s
  | Remove target => removeMaterial target s
  end.

End SetupForm.

(** ** The clarification form ([components/ClarificationForm.tsx]) *)

Module ClarificationForm.

(** [new Array(questions.length).fill('')] *)
Definition initial (questions : list ClarifyingQuestion) : list string :=
  replicate (List.length questions) "".

(** [newAnswers[qIndex] = option] on a copy; [qIndex] is the index of a
    rendered question. *)
Definition handleOptionSelect (answers : list string) (qIndex : nat)
    (option : string) : list string :=
  <[qIndex := option]> answers.

Definition isComplete (answers : list string) : bool :=
  forallb (fun a => (0 <? String.length a)%nat) answers.

(** The click on the button, with [onSubmit] bound to
    [handleClarificationSubmit]; [s] is the state of the application. *)
Definition click `{App.Services} (s : App.State) (answers : list string)
    : App.M unit :=
  if isComplete answers then App.handleClarificationSubmit s answers
  else mret tt.

End ClarificationForm.

(** ** What the application renders ([App.tsx], the returned element) *)

Module Render.

Inductive Screen : Type :=
| LoadingCard
| SetupFormScreen
| ClarificationFormScreen
| PersonaPreviewScreen
| GuideInputFormScreen
| GuideReviewScreen
| ModeSelectionCards
| ChatInterfaceScreen
| SummaryViewScreen.

(** The child that the conditions of the returned element select; [None]
    when none of them holds. *)
Definition screen (s : App.State) : option Screen :=
  match App.step s with
  | RESEARCHING => Some LoadingCard
  | SETUP => Some SetupFormScreen
  | CLARIFYING => Some ClarificationFormScreen
  | PREVIEW =>
      match App.persona s with
      | Some _ => Some PersonaPreviewScreen
      | None => None
      end
  | GUIDE_INPUT => Some GuideInputFormScreen
  | GUIDE_REVIEW => Some GuideReviewScreen
  | MODE_SELECTION =>
      match App.persona s with
      | Some _ => Some ModeSelectionCards
      | None => None
      end
  | INTERVIEW =>
      match App.chatSession s, App.persona s with
      | Some _, Some _ => Some ChatInterfaceScreen
      | _, _ => None
      end
  | SUMMARY =>
      match App.summary s, App.persona s, App.config s with
      | Some _, Some _, Some _ => Some SummaryViewScreen
      | _, _, _ => None
      end
  end.

(** The handlers that a child is given as properties. *)
Definition offers (sc : Screen) (a : App.Action) : bool :=
  match sc, a with
  | SetupFormScreen, App.InitialSubmit _ => true
  | ClarificationFormScreen, App.ClarificationSubmit _ => true
  | PersonaPreviewScreen, (App.ConfirmProfile | App.Reset) => true
  | GuideInputFormScreen, App.GenerateGuide _ _ => true
  | GuideReviewScreen, App.ConfirmGuide _ => true
  | ModeSelectionCards, App.StartInterview _ => true
  | ChatInterfaceScreen, (App.EndSession _ | App.SwitchToManual) => true
  | SummaryViewScreen, App.Reset => true
  | _, _ => false
  end.

(** The states that a user can bring about: each handler is invoked through
    the child that is on screen. *)
Inductive reachable : App.State -> Prop :=
| reachable_initial : reachable App.initial
| reachable_after (svc : App.Services) (s : App.State) (sc : Screen)
    (a : App.Action) :
    reachable s -> screen s = Some sc -> offers sc a = true ->
    reachable (App.after svc s a).

End Render.

(** ** The interview screen: [App] with the [ChatInterface] it renders *)

Module Page.

(** The application with the state of the chat component, when one is
    mounted.  React keeps the state of a child from render to render while
    the renders hold it; a render that holds it after one that did not
    creates it anew, with the initial values of its [useState] cells. *)
Record State : Type := mkState {
  app : App.State;
  chat : option ChatInterface.State
}.

(** The chat component that a render of [s] creates: App renders it when
    [step === AppStep.INTERVIEW && chatSession && persona], with
    [mode={interviewMode}]; it is given no transcript. *)
Definition mounted (s : App.State) : option ChatInterface.State :=
  match Render.screen s with
  | Some Render.ChatInterfaceScreen =>
      Some (ChatInterface.mount (App.interviewMode s))
  | _ => None
  end.

(** Whether a handler sets a stage other than [INTERVIEW]: the handler then
    awaits or returns, so that stage is rendered, without the chat
    component. *)
Definition leavesInterview (log : list App.Event) : bool :=
  existsb (fun st => negb (bool_decide (st = INTERVIEW))) (App.stages log).

(** The end button of the chat component: [onEndSession(messages)], with
    the transcript of the component. *)
Definition endSession (svc : App.Services) (p : State) : State :=
  match chat p with
  | Some c =>
      let a := App.EndSession (ChatInterface.messages c) in
      let s' := App.after svc (app p) a in
      {| app := s';
         chat := if leavesInterview (App.trace svc (app p) a)
                 then mounted s' else Some c |}
  | None => p
  end.

End Page.

(** ** Measures on logs and transcripts *)

Module Measure.

(** The number of attempts in a log of the retry helper. *)
Definition attempts (log : list Effect) : nat :=
  List.length (List.filter (fun ef => match ef with Invoke _ => true | _ => false end) log).

(** The time a log of the retry helper spends waiting. *)
Definition totalWait (log : list Effect) : Z :=
  fold_right (fun ef acc => match ef with Sleep ms => ms + acc | _ => acc end) 0 log.

(** A message of the persona or a question of the automated moderator. *)
Definition moderated (m : ChatMessage) : bool :=
  match role m, isAiInterviewer m with
  | model, _ => true
  | user, Some true => true
  | user, _ => false
  end.

(** No two neighbours by the same speaker. *)
Fixpoint takesTurns (l : list ChatMessage) : bool :=
  match l with
  | m1 :: rest =>
      match rest with
      | m2 :: _ => negb (bool_decide (role m1 = role m2)) && takesTurns rest
      | [] => true
      end
  | [] => true
  end.

(** A transcript of an automated interview: the persona opens it, the persona
    and the automated moderator take turns, and nobody else speaks. *)
Definition autoTranscript (l : list ChatMessage) : bool :=
  match l with
  | m :: _ => bool_decide (role m = model)
  | [] => true
  end && forallb moderated l && takesTurns l.

(** What holds of the transcript of an automated interview while the mode is
    automated: it is such a transcript, and a question that has been sent to
    the persona is its last message. *)
Definition autoInvariant (s : ChatInterface.State) : Prop :=
  ChatInterface.mode s = AUTO ->
  autoTranscript (ChatInterface.messages s) = true /\
  forall q, ChatInterface.pending s = [ChatInterface.AwaitPersonaReply q] ->
    exists m, last (ChatInterface.messages s) = Some m /\ role m = user.

(** The chat after a failed persona reply within an automated turn: the
    typing flag is set and nothing but the cool-down timer is suspended. *)
Definition stalled (history : list ChatMessage) (s : ChatInterface.State)
    : Prop :=
  ChatInterface.messages s = history /\ ChatInterface.isTyping s = true /\
  (ChatInterface.pending s = [] \/
   ChatInterface.pending s = [ChatInterface.AwaitCooldown 5000]).

End Measure.

(** ** More concrete inputs *)

Module Sample.

(** A backend that answers the persona request with [Demo.reply] and the image
    request with two parts, the second of which holds data. *)
Definition backendWithImage : Backend := fun request attempt =>
  match request with
  | ReqPersonaText _ _ _ _ =>
      Ok {| response_text := Some Demo.reply; groundingChunks := [];
            inlineParts := None |}
  | ReqPersonaImage _ _ =>
      Ok {| response_text := None; groundingChunks := [];
            inlineParts := Some [None; Some "iVBORw0KGgo="] |}
  | _ => Err Demo.serverError
  end.

(** A backend that answers every request with prose. *)
Definition backendProse : Backend := fun request attempt =>
  Ok {| response_text := Some "# 小林 是一位大学生";
        groundingChunks :=
          [Some {| uri := "https://example.org/a"; title := "a" |}; None];
        inlineParts := None |}.

(** A setup form with its two fields filled in and one link. *)
Definition form : SetupForm.State :=
  SetupForm.handleAddLink (Some "https://example.org/report") 1700000000000
    (SetupForm.mkState " 咖啡机" "预算敏感型大学生" [] []).

(** A setup form whose audience is white space. *)
Definition blankForm : SetupForm.State :=
  SetupForm.mkState "咖啡机" "  " [] [].

Definition questions : list ClarifyingQuestion :=
  [{| question := "年龄段？"; options := ["18-22"; "23-30"] |};
   {| question := "月预算？"; options := ["500 以下"; "500 以上"] |}].

(** The session when the clarification form is shown. *)
Definition atClarifying : App.State :=
  App.after
    {| App.analyzeRequirements := fun _ _ => Ok (Some questions);
       App.generatePersonaProfile := fun _ _ _ _ => Ok (Demo.profile, []);
       App.generateDiscussionGuide := fun _ _ _ _ => Ok Demo.guide;
       App.createInterviewSession := fun p i =>
         Ok {| App.chat_profile := p; App.chat_industry := i |};
       App.generateInterviewSummary := fun _ _ _ => Ok Demo.summary |}
    App.initial (App.InitialSubmit Demo.config).

(** The automated interview when the moderator has asked its first question
    and the persona has been sent it. *)
Definition questionAsked : ChatInterface.State :=
  match
    ChatInterface.step Demo.guide Demo.profile Demo.moderatorAsked
      (ChatInterface.ModeratorAnswered 0 backendProse 2)
  with
  | Some s => s
  | None => Demo.moderatorAsked
  end.

(** Services that answer every call but the one for the summary. *)
Definition summaryDown : App.Services :=
  {| App.analyzeRequirements := fun _ _ => Ok None;
     App.generatePersonaProfile := fun _ _ _ _ => Ok (Demo.profile, []);
     App.generateDiscussionGuide := fun _ _ _ _ => Ok Demo.guide;
     App.createInterviewSession := fun p i =>
       Ok {| App.chat_profile := p; App.chat_industry := i |};
     App.generateInterviewSummary := fun _ _ _ => Err Demo.serverError |}.

(** The interview screen of [Demo.atInterview] when the moderator has asked
    its first question. *)
Definition interviewPage : Page.State :=
  {| Page.app := Demo.atInterview; Page.chat := Some questionAsked |}.

End Sample.

(** * Properties *)

(** ** The retry helper *)

Lemma flat_map_seq_shift {A : Type} (f : nat -> list A) (len : nat) :
  forall start,
    flat_map f (seq (S start) len) = flat_map (fun i => f (S i)) (seq start len).
Proof.
  induction len as [|len IH]; intros start; cbn [seq flat_map].
  - reflexivity.
  - now rewrite IH.
Qed.

Lemma runWithRetry_from_spec {T : Type} (operation : nat -> result T)
    (retries : nat) : forall (delay : Z) (n : nat),
  exists k : nat,
    (k <= retries)%nat /\
    (forall i, (i < k)%nat ->
       exists e, operation (n + i)%nat = Err e /\ isRateLimit e = true) /\
    snd (runWithRetry_from operation retries delay n) =
      (flat_map (fun i => [Invoke (n + i); Sleep (delay * 2 ^ Z.of_nat i)])
         (seq 0 k) ++ [Invoke (n + k)])%list /\
    fst (runWithRetry_from operation retries delay n) = operation (n + k)%nat /\
    (forall e, operation (n + k)%nat = Err e ->
       isRateLimit e = false \/ k = retries).
Proof.
  induction retries as [|r IH]; intros delay n.
  - exists 0%nat. rewrite Nat.add_0_r. cbn [runWithRetry_from seq flat_map app].
    split; [lia|]. split; [intros i Hi; lia|].
    destruct (operation n) as [v|e]; [|destruct (isRateLimit e)];
      cbn [fst snd]; (split; [reflexivity|]; split; [reflexivity|]);
      intros; auto; discriminate.
  - cbn [runWithRetry_from].
    destruct (operation n) as [v|e] eqn:Hop.
    { exists 0%nat. rewrite Nat.add_0_r, Hop. cbn [seq flat_map app fst snd].
      split; [lia|]. split; [intros i Hi; lia|].
      split; [reflexivity|]. split; [reflexivity|]. discriminate. }
    destruct (isRateLimit e) eqn:Hrl.
    + destruct (IH (delay * 2) (S n)) as (k & Hk & Hprev & Htr & Hres & Hlast).
      destruct (runWithRetry_from operation r (delay * 2) (S n)) as [res tr].
      cbn [fst snd] in *. exists (S k).
      replace (n + S k)%nat with (S n + k)%nat by lia.
      split; [lia|]. split; [|split; [|split]].
      * intros [|i] Hi.
        -- rewrite Nat.add_0_r. eauto.
        -- replace (n + S i)%nat with (S n + i)%nat by lia. apply Hprev. lia.
      * rewrite Htr. cbn [seq flat_map app].
        rewrite Nat.add_0_r, Z.pow_0_r, Z.mul_1_r. do 2 f_equal.
        rewrite flat_map_seq_shift.
        f_equal. apply flat_map_ext. intros i.
        replace (n + S i)%nat with (S (n + i)) by lia.
        rewrite Nat2Z.inj_succ, Z.pow_succ_r by lia.
        do 3 f_equal. lia.
      * exact Hres.
      * intros e' He'. destruct (Hlast e' He'); [now left | right; lia].
    + exists 0%nat. rewrite Nat.add_0_r, Hop. cbn [seq flat_map app fst snd].
      split; [lia|]. split; [intros i Hi; lia|].
      split; [reflexivity|]. split; [reflexivity|].
      intros e' [= <-]. now left.
Qed.

(** Two rate-limit failures, then a value: two waits, the second twice the
    first.  A server error: no retry. *)
Example runWithRetry_examples :
  runWithRetry (fun n => if (n <? 2)%nat then Err Demo.rateLimited else Ok n) 5 4000
    = (Ok 2%nat, [Invoke 0; Sleep 4000; Invoke 1; Sleep 8000; Invoke 2]) /\
  runWithRetry (fun n => @Err nat Demo.serverError) 5 4000
    = (Err Demo.serverError, [Invoke 0]) /\
  runWithRetry (fun n => @Err nat Demo.rateLimited) 2 5000
    = (Err Demo.rateLimited,
       [Invoke 0; Sleep 5000; Invoke 1; Sleep 10000; Invoke 2]).
Proof. repeat split; reflexivity. Qed.

(** C9.  Every run of the retry helper makes [k + 1] attempts for some
    [k <= retries]: each of the first [k] attempts failed with a rate-limit
    error and was followed by a wait of [delay * 2 ^ i] milliseconds (the
    delay doubles on each retry); the helper returns what the last attempt
    returned, value or error, unchanged; and when that is an error, either it
    is not a rate-limit error (it is rethrown at once, no wait follows it) or
    the [retries] retries are used up. *)
Theorem runWithRetry_bounded_backoff {T : Type} (operation : nat -> result T)
    (retries : nat) (delay : Z) :
  exists k : nat,
    (k <= retries)%nat /\
    (forall i, (i < k)%nat ->
       exists e, operation i = Err e /\ isRateLimit e = true) /\
    snd (runWithRetry operation retries delay) =
      (flat_map (fun i => [Invoke i; Sleep (delay * 2 ^ Z.of_nat i)])
         (seq 0 k) ++ [Invoke k])%list /\
    fst (runWithRetry operation retries delay) = operation k /\
    (forall e, operation k = Err e -> isRateLimit e = false \/ k = retries).
Proof.
  exact (runWithRetry_from_spec operation retries delay 0).
Qed.

(** ** Trimming *)

Lemma ws2_not_ws1 a b : ws2 a b = true -> ws1 a = false.
Proof.
  unfold ws2, ws1. intros H.
  apply andb_true_iff in H as [Ha _]. apply N.eqb_eq in Ha.
  now rewrite Ha.
Qed.

Lemma ws3_lead a b c :
  ws3 a b c = true ->
  byte a = 225%N \/ byte a = 226%N \/ byte a = 227%N \/ byte a = 239%N.
Proof.
  unfold ws3. intros H.
  repeat (apply orb_true_iff in H as [H|H]);
    repeat (apply andb_true_iff in H as [H ?]);
    apply N.eqb_eq in H; auto.
Qed.

Lemma ws3_not_ws1 a b c : ws3 a b c = true -> ws1 a = false.
Proof.
  intros H. apply ws3_lead in H. unfold ws1.
  destruct H as [H|[H|[H|H]]]; now rewrite H.
Qed.

Lemma ws3_not_ws2 a b c : ws3 a b c = true -> ws2 a b = false.
Proof.
  intros H. apply ws3_lead in H. unfold ws2.
  destruct H as [H|[H|[H|H]]]; now rewrite H.
Qed.

Lemma trimStart_bytes_Blank l : Blank l -> trimStart_bytes l = [].
Proof.
  induction 1 as [|a l Ha _ IH|a b l Hab _ IH|a b c l Habc _ IH];
    cbn [trimStart_bytes].
  - reflexivity.
  - now rewrite Ha.
  - now rewrite (ws2_not_ws1 _ _ Hab), Hab.
  - now rewrite (ws3_not_ws1 _ _ _ Habc), (ws3_not_ws2 _ _ _ Habc), Habc.
Qed.

Lemma trim_whitespace_only s : whitespace_only s -> trim s = "".
Proof.
  intros H. unfold trim. now rewrite (trimStart_bytes_Blank _ H).
Qed.

Lemma Blank_app l1 l2 : Blank l1 -> Blank l2 -> Blank (l1 ++ l2).
Proof.
  induction 1; intros H2; cbn; auto using Blank.
Qed.

Lemma trimStart_bytes_Blank_inv (n : nat) : forall l,
  (List.length l <= n)%nat -> Blank (trimStart_bytes l) -> Blank l.
Proof.
  induction n as [|n IH]; intros l Hlen.
  - destruct l; [auto|cbn in Hlen; lia].
  - destruct l as [|a l1]; [auto|]. cbn in Hlen. cbn [trimStart_bytes].
    destruct (ws1 a) eqn:Ha.
    { intros H. apply Blank_1; [exact Ha|]. apply IH; [lia|exact H]. }
    destruct l1 as [|b l2]; [auto|]. cbn in Hlen.
    destruct (ws2 a b) eqn:Hab.
    { intros H. apply Blank_2; [exact Hab|]. apply IH; [lia|exact H]. }
    destruct l2 as [|c l3]; [auto|]. cbn in Hlen.
    destruct (ws3 a b c) eqn:Habc; [|auto].
    intros H. apply Blank_3; [exact Habc|]. apply IH; [lia|exact H].
Qed.

Lemma trimEnd_rev_nil (n : nat) : forall r,
  (List.length r <= n)%nat -> trimEnd_rev r = [] -> Blank (rev r).
Proof.
  induction n as [|n IH]; intros r Hlen.
  - destruct r; [constructor|cbn in Hlen; lia].
  - destruct r as [|c r1]; [constructor|]. cbn in Hlen. cbn [trimEnd_rev].
    destruct (ws1 c) eqn:Hc.
    { intros H. cbn [rev]. apply Blank_app; [apply IH; [lia|exact H]|].
      apply Blank_1; [exact Hc|constructor]. }
    destruct r1 as [|b r2]; [discriminate|]. cbn in Hlen.
    destruct (ws2 b c) eqn:Hbc.
    { intros H. cbn [rev]. rewrite <- app_assoc.
      apply Blank_app; [apply IH; [lia|exact H]|].
      apply Blank_2; [exact Hbc|constructor]. }
    destruct r2 as [|a r3]; [discriminate|]. cbn in Hlen.
    destruct (ws3 a b c) eqn:Habc; [|discriminate].
    intros H. cbn [rev]. rewrite <- !app_assoc.
    apply Blank_app; [apply IH; [lia|exact H]|].
    apply Blank_3; [exact Habc|constructor].
Qed.

(** A string trims to the empty string exactly when it holds white space
    only. *)
Lemma trim_empty_iff s : trim s = "" <-> whitespace_only s.
Proof.
  split; [|apply trim_whitespace_only].
  unfold trim, whitespace_only, trimEnd_bytes. intros H.
  set (m := trimStart_bytes (list_ascii_of_string s)) in *.
  assert (Hnil : trimEnd_rev (rev m) = []).
  { destruct (trimEnd_rev (rev m)) as [|x r] eqn:E; [reflexivity|].
    cbn [rev] in H. destruct (rev r); discriminate H. }
  apply (trimEnd_rev_nil _ _ (Nat.le_refl _)) in Hnil.
  rewrite rev_involutive in Hnil.
  now apply (trimStart_bytes_Blank_inv _ _ (Nat.le_refl _)).
Qed.

(** [trim] on some inputs: spaces, a line feed and the ideographic space
    U+3000 go; inner white space stays. *)
Example trim_examples :
  trim "  q1 " = "q1" /\ trim "" = "" /\ trim "  " = "" /\
  trim "　您好　" = "您好" /\ trim " a b " = "a b".
Proof. repeat split; reflexivity. Qed.

(** ** The workflow state machine *)

(** Unfolding a handler run down to the answers of the services. *)
Ltac run_handler :=
  cbv [App.after App.trace App.run App.handler
       App.handleInitialSubmit App.handleClarificationSubmit
       App.handleConfirmProfile App.handleGenerateGuide App.handleConfirmGuide
       App.startInterview App.handleEndSession App.handleReset
       App.executePersonaGeneration GuideReview.confirm
       App.setStep App.setConfig App.setClarificationQuestions App.setPersona
       App.setSources App.setDiscussionGuide App.setInterviewMode
       App.setChatSession App.setChatHistory App.setSummary App.setError
       App.setIsLoadingGuide
       App.update App.emit App.await App.try_catch App.try_finally
       mbind mret App.M_bind App.M_ret fst snd].

(** Case analysis on what the goal branches on. *)
Ltac case_answers :=
  repeat match goal with
         | |- context [match ?x with _ => _ end] =>
             lazymatch x with
             | context [match _ with _ => _ end] => fail
             | _ => destruct x eqn:?; cbn
             end
         end.

(** An interview is only shown for a persona and a configuration. *)
Lemma interview_has_persona_and_config (s : App.State) :
  App.reachable s ->
  App.step s = INTERVIEW ->
  (exists p, App.persona s = Some p) /\ (exists c, App.config s = Some c).
Proof.
  induction 1 as [|svc s a Hreach IH].
  - discriminate.
  - destruct a; run_handler; case_answers;
      repeat match goal with
             | H : ?a = _ |- context [?a] => rewrite H
             end;
      first [discriminate | exact IH | eauto].
Qed.

(** The state that [handleReset] leaves: the initial one, except for the
    interview mode and the loading flag of the guide, which it does not set. *)
Lemma handleReset_state (svc : App.Services) (s : App.State) :
  App.after svc s App.Reset =
  App.setInterviewMode_state (App.interviewMode s)
    (App.setIsLoadingGuide_state (App.isLoadingGuide s) App.initial).
Proof. reflexivity. Qed.

(** C1 (the code departs from it).  After an interview held in automated mode,
    [handleReset] leaves the interview mode at [AUTO], while the initial
    mode is [MANUAL]: the handler has no [setInterviewMode]. *)
Theorem handleReset_keeps_interview_mode :
  App.reachable Demo.atSummary /\
  App.step Demo.atSummary = SUMMARY /\
  App.interviewMode (App.after Demo.healthy Demo.atSummary App.Reset) = AUTO /\
  App.interviewMode App.initial = MANUAL /\
  App.after Demo.healthy Demo.atSummary App.Reset <> App.initial.
Proof.
  split; [|split; [|split; [|split]]]; try reflexivity.
  - unfold Demo.atSummary, Demo.atInterview. cbv zeta.
    repeat apply App.reachable_after. apply App.reachable_initial.
  - discriminate.
Qed.

(** The handler alone.  Ending the interview from a reachable state at the
    interview stage stores exactly the transcript passed in and asks for the summary of that
    transcript; when the summary is generated the stage becomes [SUMMARY] and
    the summary is stored; when summary generation fails an error is set and
    the stage is [INTERVIEW] again, the stored transcript being the one passed
    in. *)
Theorem handleEndSession_keeps_transcript (svc : App.Services) (s : App.State)
    (messages : list ChatMessage) :
  App.reachable s ->
  App.step s = INTERVIEW ->
  exists p c,
    App.persona s = Some p /\ App.config s = Some c /\
    let s' := App.after svc s (App.EndSession messages) in
    let log := App.trace svc s (App.EndSession messages) in
    App.chatHistory s' = messages /\
    match App.generateInterviewSummary p (industry c) messages with
    | Ok summaryData =>
        log = [App.Entered RESEARCHING;
               App.CalledGenerateInterviewSummary p (industry c) messages;
               App.Entered SUMMARY] /\
        App.step s' = SUMMARY /\
        App.summary s' = Some summaryData
    | Err e =>
        log = [App.Entered RESEARCHING;
               App.CalledGenerateInterviewSummary p (industry c) messages;
               App.Entered INTERVIEW] /\
        App.step s' = INTERVIEW /\
        App.error s' = Some "生成总结报告失败。"
    end.
Proof.
  intros Hreach Hstep.
  destruct (interview_has_persona_and_config s Hreach Hstep) as [[p Hp] [c Hc]].
  exists p, c. split; [exact Hp|]. split; [exact Hc|].
  run_handler. rewrite Hp, Hc.
  destruct (App.generateInterviewSummary p (industry c) messages); cbn; auto.
Qed.

Lemma handleEndSession_keeps_transcript_witness :
  exists p c,
    App.persona Demo.atInterview = Some p /\
    App.config Demo.atInterview = Some c /\
    App.chatHistory
      (App.after Demo.healthy Demo.atInterview (App.EndSession Demo.transcript))
    = Demo.transcript.
Proof.
  destruct (handleEndSession_keeps_transcript Demo.healthy Demo.atInterview
              Demo.transcript) as (p & c & Hp & Hc & Hh & _).
  - unfold Demo.atInterview. cbv zeta.
    repeat apply App.reachable_after. apply App.reachable_initial.
  - reflexivity.
  - exists p, c. auto.
Defined.

(** Zero clarifying questions: [null] or an empty list. *)
Lemma no_questions_cases (r : result (option (list ClarifyingQuestion))) :
  r = Ok None \/ r = Ok (Some []) ->
  match r with
  | Ok (Some (_ :: _)) | Err _ => False
  | _ => True
  end.
Proof. intros [-> | ->]; exact I. Qed.

(** C6, as stated, fails: with zero clarifying questions and a failing persona
    generation the stage goes from [SETUP] to [RESEARCHING] and back to
    [SETUP]; it never is [PREVIEW]. *)
Lemma initial_submit_reaches_preview_counterexample :
  ~ (forall (svc : App.Services) (s : App.State) (inputConfig : ResearchConfig),
       App.step s = SETUP ->
       App.analyzeRequirements (industry inputConfig) (targetAudience inputConfig)
         = Ok None ->
       App.personaCalls (App.trace svc s (App.InitialSubmit inputConfig)) = [[]] /\
       App.step s :: App.stages (App.trace svc s (App.InitialSubmit inputConfig))
         = [SETUP; RESEARCHING; PREVIEW]).
Proof.
  intros H.
  destruct (H Demo.personaDown App.initial Demo.config eq_refl eq_refl) as [_ Hst].
  discriminate Hst.
Qed.

(** C6, amended.  For every initial submission for which requirement analysis
    returns no clarifying question, persona generation is called exactly once,
    with an empty list of clarifications, and the stage never is
    [CLARIFYING]; when persona generation succeeds the stage goes from [SETUP]
    to [RESEARCHING] to [PREVIEW] and the persona is stored; when it fails the
    stage goes from [SETUP] to [RESEARCHING] and back to [SETUP], with an
    error. *)
Theorem initial_submit_without_questions (svc : App.Services) (s : App.State)
    (inputConfig : ResearchConfig) :
  App.step s = SETUP ->
  (App.analyzeRequirements (industry inputConfig) (targetAudience inputConfig)
     = Ok None \/
   App.analyzeRequirements (industry inputConfig) (targetAudience inputConfig)
     = Ok (Some [])) ->
  let s' := App.after svc s (App.InitialSubmit inputConfig) in
  let log := App.trace svc s (App.InitialSubmit inputConfig) in
  App.personaCalls log = [[]] /\
  ~ In CLARIFYING (App.stages log) /\
  match App.generatePersonaProfile (industry inputConfig)
          (targetAudience inputConfig) []
          (App.or_empty (referenceMaterials inputConfig)) with
  | Ok (profile, fetchedSources) =>
      App.step s :: App.stages log = [SETUP; RESEARCHING; PREVIEW] /\
      App.step s' = PREVIEW /\
      App.persona s' = Some profile
  | Err e =>
      App.step s :: App.stages log = [SETUP; RESEARCHING; SETUP] /\
      App.step s' = SETUP /\
      App.error s' = Some "分析需求时出错，请重试。"
  end.
Proof.
  intros Hstep Hzero. apply no_questions_cases in Hzero.
  run_handler. rewrite Hstep.
  destruct (App.analyzeRequirements _ _) as [[[|q qs]|]|e]; try contradiction;
    destruct (App.generatePersonaProfile _ _ _ _) as [[profile src]|e'];
    cbn; (split; [reflexivity|]; split; [|auto]);
    intros Hin; cbn in Hin; intuition discriminate.
Qed.

Lemma initial_submit_without_questions_witness :
  App.personaCalls (App.trace Demo.healthy App.initial (App.InitialSubmit Demo.config))
    = [[]] /\
  ~ In CLARIFYING
      (App.stages (App.trace Demo.healthy App.initial (App.InitialSubmit Demo.config))).
Proof.
  destruct (initial_submit_without_questions Demo.healthy App.initial Demo.config)
    as (Hcalls & Hnever & _).
  - reflexivity.
  - left. reflexivity.
  - split; assumption.
Defined.

(** Guide generation never rejects: its [catch] answers every failure with the
    fallback guide. *)
Lemma generateDiscussionGuide_total `{Runtime} (ai : Backend) (industry : string)
    (profile : PersonaProfile) (objectives userQuestions : string) :
  exists guide,
    Service.generateDiscussionGuide ai industry profile objectives userQuestions
      = Ok guide.
Proof.
  unfold Service.generateDiscussionGuide.
  match goal with |- context [match ?x with _ => _ end] => destruct x end; eauto.
Qed.

Lemma generateDiscussionGuide_fallback `{Runtime} (ai : Backend) (industry : string)
    (profile : PersonaProfile) (objectives userQuestions : string) (e : JsError) :
  fst (runWithRetry (ai (ReqGuide industry profile objectives userQuestions)) 5 4000)
    = Err e ->
  Service.generateDiscussionGuide ai industry profile objectives userQuestions
    = Ok fallbackGuide.
Proof.
  intros Hfail. unfold Service.generateDiscussionGuide. now rewrite Hfail.
Qed.

(** C3, as stated, fails: when every attempt of the guide request fails, the
    handler leaves no error and the stage is [GUIDE_REVIEW]. *)
Lemma generate_guide_failure_counterexample :
  ~ (forall (rt : Runtime) (ai : Backend) (other : App.Services) (s : App.State)
            (objectives userQuestions : string) (p : PersonaProfile)
            (c : ResearchConfig) (e : JsError),
       App.step s = GUIDE_INPUT ->
       App.persona s = Some p ->
       App.config s = Some c ->
       fst (runWithRetry (ai (ReqGuide (industry c) p objectives userQuestions)) 5 4000)
         = Err e ->
       let s' := App.after (geminiService ai other) s
                   (App.GenerateGuide objectives userQuestions) in
       App.error s' <> None /\ App.step s' = GUIDE_INPUT).
Proof.
  intros H.
  destruct (H Demo.runtime Demo.backendDown Demo.healthy
              Demo.atGuideInput
              "" "" Demo.profile Demo.config Demo.serverError
              eq_refl eq_refl eq_refl eq_refl) as [Herr _].
  apply Herr. reflexivity.
Qed.

(** C3, amended.  When the backend call of guide generation fails,
    [generateDiscussionGuide] itself answers with the fallback guide of three
    questions and does not reject; the handler stores that guide and moves to
    [GUIDE_REVIEW]; it sets no error, and persona and configuration are
    retained. *)
Theorem generate_guide_failure_falls_back (rt : Runtime) (ai : Backend)
    (other : App.Services) (s : App.State) (objectives userQuestions : string)
    (p : PersonaProfile) (c : ResearchConfig) (e : JsError) :
  App.persona s = Some p ->
  App.config s = Some c ->
  fst (runWithRetry (ai (ReqGuide (industry c) p objectives userQuestions)) 5 4000)
    = Err e ->
  let s' := App.after (geminiService ai other) s
              (App.GenerateGuide objectives userQuestions) in
  Service.generateDiscussionGuide ai (industry c) p objectives userQuestions
    = Ok fallbackGuide /\
  List.length fallbackGuide = 3%nat /\
  App.discussionGuide s' = fallbackGuide /\
  App.step s' = GUIDE_REVIEW /\
  App.error s' = App.error s /\
  App.persona s' = Some p /\
  App.config s' = Some c.
Proof.
  intros Hp Hc Hfail.
  pose proof (generateDiscussionGuide_fallback ai _ _ _ _ e Hfail) as Hfb.
  split; [exact Hfb|]. split; [reflexivity|].
  run_handler. rewrite Hp, Hc. cbn. rewrite Hfb. cbn. auto.
Qed.

Lemma generate_guide_failure_falls_back_witness :
  App.step
    (App.after (@geminiService Demo.runtime Demo.backendDown Demo.healthy)
       Demo.atGuideInput (App.GenerateGuide "" "")) = GUIDE_REVIEW.
Proof.
  destruct (generate_guide_failure_falls_back Demo.runtime Demo.backendDown
              Demo.healthy
              Demo.atGuideInput
              "" "" Demo.profile Demo.config Demo.serverError)
    as (_ & _ & _ & Hstep & _).
  - reflexivity.
  - reflexivity.
  - reflexivity.
  - exact Hstep.
Defined.

(** ** Guide review *)

Lemma nonempty_after_trim (q : string) :
  (0 <? String.length (trim q))%nat = negb (String.eqb (trim q) "").
Proof. now destruct (trim q). Qed.

(** C7.  Confirming the guide stores exactly the entries of the edited list
    that are not empty after trimming (those that hold more than white space),
    in their order, and moves to [MODE_SELECTION]; for the list [q1], empty,
    two spaces, [q2] it stores [q1] and [q2]. *)
Theorem confirm_guide_strips_blank_entries (s : App.State)
    (questions : list string) :
  let s' := fst (App.run s (fun _ => GuideReview.confirm questions)) in
  App.discussionGuide s' =
    List.filter (fun q => negb (String.eqb (trim q) "")) questions /\
  (forall q, In q (App.discussionGuide s') <->
             In q questions /\ ~ whitespace_only q) /\
  App.step s' = MODE_SELECTION /\
  App.discussionGuide
    (fst (App.run s (fun _ => GuideReview.confirm ["q1"; ""; "  "; "q2"])))
    = ["q1"; "q2"].
Proof.
  assert (Hf : GuideReview.confirmed questions =
               List.filter (fun q => negb (String.eqb (trim q) "")) questions).
  { unfold GuideReview.confirmed. apply filter_ext. intros q.
    apply nonempty_after_trim. }
  assert (Hs : App.discussionGuide
                 (fst (App.run s (fun _ => GuideReview.confirm questions)))
               = GuideReview.confirmed questions) by reflexivity.
  cbv zeta. rewrite Hs, Hf.
  split; [reflexivity|]. split; [|split; reflexivity].
  intros q. rewrite filter_In, <- trim_empty_iff.
  destruct (String.eqb_spec (trim q) ""); cbn; intuition congruence.
Qed.

(** ** Persona generation *)

Lemma default_scores_in_range (dim : string) :
  In dim dimensions -> assoc dim
    [("demographics", JNum 3); ("psychographics", JNum 3);
     ("behaviors", JNum 3); ("needs", JNum 3)] = Some (JNum 3).
Proof.
  cbn. intros [<-|[<-|[<-|[<-|[]]]]]; reflexivity.
Qed.

(** C8, as stated, fails: the scores of the parsed reply are stored as they
    come; a reply with [demographics: 9] gives a profile whose demographics
    score is 9. *)
Lemma persona_scores_in_range_counterexample :
  ~ (forall (rt : Runtime) (ai : Backend) (industry targetAudience : string)
            (clarifications : list string) (materials : list ReferenceMaterial)
            (profile : PersonaProfile) (sources : list GroundingSource)
            (dim : string),
       Service.generatePersonaProfile ai industry targetAudience clarifications
         materials = Ok (profile, sources) ->
       In dim dimensions ->
       exists n, score profile dim = Some (JNum n) /\ 0 <= n <= 5).
Proof.
  intros H.
  destruct (H Demo.runtime Demo.backendReplying "咖啡机" "预算敏感型大学生" [] []
              _ _ "demographics" eq_refl) as (n & Hn & Hrange).
  - cbn. auto.
  - vm_compute in Hn. injection Hn as <-. lia.
Qed.

(** C8, amended.  The profile that persona generation returns holds, as its
    scores, the [scores] value of the parsed reply when that value is truthy,
    unchanged and unchecked; when the reply has no truthy [scores] or cannot be
    parsed, each of the four scores is the integer 3, which lies between 0
    and 5. *)
Theorem persona_scores_from_reply (rt : Runtime) (ai : Backend)
    (industry targetAudience : string) (clarifications : list string)
    (materials : list ReferenceMaterial) (profile : PersonaProfile)
    (sources : list GroundingSource) :
  Service.generatePersonaProfile ai industry targetAudience clarifications
    materials = Ok (profile, sources) ->
  exists response resultScores,
    fst (runWithRetry
           (ai (ReqPersonaText industry targetAudience clarifications materials))
           5 5000) = Ok response /\
    get_prop (resultOf response) "scores" = Ok resultScores /\
    (forall given, resultScores = Some given -> truthy given = true ->
       scores profile = Some given) /\
    (resultScores = None \/
     (exists given, resultScores = Some given /\ truthy given = false) \/
     JSON_parse (jsonStringOf response) = None ->
     forall dim, In dim dimensions ->
       score profile dim = Some (JNum 3) /\ 0 <= 3 <= 5).
Proof.
  unfold Service.generatePersonaProfile. intros Hgen.
  destruct (fst (runWithRetry _ 5 5000)) as [response|e]; [|discriminate].
  cbn in Hgen.
  destruct (get_prop (resultOf response) "markdownProfile") as [mp|e] eqn:Hmp;
    [|discriminate].
  cbn in Hgen.
  destruct (get_prop (resultOf response) "scores") as [rs|e] eqn:Hrs;
    [|discriminate].
  cbn in Hgen.
  destruct (json_or mp (JStr "# 生成失败")); try discriminate.
  injection Hgen as <- <-.
  exists response, rs. split; [reflexivity|]. split; [exact Hrs|].
  unfold score. cbn [scores]. split.
  - intros given -> Ht. cbn. now rewrite Ht.
  - intros Hdefault dim Hdim. split; [|lia].
    assert (Hsc : json_or rs defaultScores = defaultScores).
    { destruct Hdefault as [->|[(given & -> & Hf)| Hparse]].
      - reflexivity.
      - cbn. now rewrite Hf.
      - unfold resultOf in Hrs. rewrite Hparse in Hrs. cbn in Hrs.
        injection Hrs as <-. reflexivity. }
    rewrite Hsc. cbn [defaultScores]. now apply default_scores_in_range.
Qed.

Lemma persona_scores_from_reply_witness :
  exists profile sources,
    @Service.generatePersonaProfile Demo.runtime Demo.backendSilent
      "咖啡机" "预算敏感型大学生" [] [] = Ok (profile, sources) /\
    score profile "needs" = Some (JNum 3).
Proof.
  eexists _, _. split; [reflexivity|].
  destruct (persona_scores_from_reply Demo.runtime Demo.backendSilent
              "咖啡机" "预算敏感型大学生" [] [] _ _ eq_refl)
    as (response & rs & Hresp & Hrs & _ & Hdefault).
  apply Hdefault.
  - left. cbv in Hresp. injection Hresp as <-.
    vm_compute in Hrs. now injection Hrs as <-.
  - cbn. auto.
Defined.

(** ** The interview turn loop *)

Module Import ChatFacts.
Import ChatInterface.

Section Component.
Context (guide : list string) (profile : PersonaProfile).

Lemma runAiModeratorLoop_cases (s : State) :
  runAiModeratorLoop s = s \/
  (mode s = AUTO /\ isTyping s = false /\ lastIsModel s /\
   runAiModeratorLoop s =
     spawn (AwaitPacing 3000 (messages s)) (setAiModeratorStatus Thinking s)).
Proof.
  unfold runAiModeratorLoop, lastIsModel.
  destruct (mode s); [now left|].
  destruct (isTyping s); [now left|].
  destruct (last (messages s)) as [m|]; [|now left].
  destruct (role m) eqn:Hrole; [now left|].
  right. eauto 10.
Qed.

Lemma rerender_cases (old new : State) :
  rerender old new = new \/
  (mode new = AUTO /\ isTyping new = false /\ lastIsModel new /\
   deps old <> deps new /\
   rerender old new =
     spawn (AwaitPacing 3000 (messages new))
       (setAiModeratorStatus Thinking new)).
Proof.
  unfold rerender. destruct (decide (deps old = deps new)); [now left|].
  destruct (runAiModeratorLoop_cases new) as [->|(? & ? & ? & ->)]; auto 10.
Qed.

Lemma rerender_messages (old new : State) :
  messages (rerender old new) = messages new.
Proof. destruct (rerender_cases old new) as [->|(_ & _ & _ & _ & ->)]; reflexivity. Qed.

Lemma rerender_mode (old new : State) :
  mode (rerender old new) = mode new.
Proof. destruct (rerender_cases old new) as [->|(_ & _ & _ & _ & ->)]; reflexivity. Qed.

Lemma rerender_isTyping (old new : State) :
  isTyping (rerender old new) = isTyping new.
Proof. destruct (rerender_cases old new) as [->|(_ & _ & _ & _ & ->)]; reflexivity. Qed.

Lemma rerender_manual (old new : State) :
  mode new = MANUAL -> rerender old new = new.
Proof.
  intros Hm. destruct (rerender_cases old new) as [->|(Ha & _)]; [reflexivity|].
  congruence.
Qed.

Lemma rerender_same_deps (old new : State) :
  deps old = deps new -> rerender old new = new.
Proof. intros H. unfold rerender. now destruct (decide (deps old = deps new)). Qed.

Lemma step_inv (s s' : State) (ev : Event) :
  step guide profile s ev = Some s' ->
  exists s1, react guide profile s ev = Some s1 /\ s' = rerender s s1.
Proof.
  unfold step. destruct (react guide profile s ev) as [s1|]; [|discriminate].
  intros [= <-]. eauto.
Qed.

(** The mode never goes back to [AUTO]. *)
Lemma react_manual (s s1 : State) (ev : Event) :
  react guide profile s ev = Some s1 -> mode s = MANUAL -> mode s1 = MANUAL.
Proof.
  intros Hreact Hm. destruct ev; cbn in Hreact.
  - now injection Hreact as <-.
  - injection Hreact as <-. unfold handleManualSend.
    destruct (_ || _); [exact Hm|]. now rewrite Hm.
  - now injection Hreact as <-.
  - destruct (pending s !! i) as [[]|]; cbn in Hreact; try discriminate;
      now injection Hreact as <-.
  - destruct (pending s !! i) as [[]|]; cbn in Hreact; try discriminate;
      destruct r; try discriminate; injection Hreact as <-; try exact Hm;
      unfold moderatorCatch; now destruct (isRateLimit429 _).
  - destruct (pending s !! i) as [[]|]; cbn in Hreact; try discriminate.
    destruct (getAIInterviewerNextQuestion _ _ _ _) as [[q|]|e];
      try destruct (String.eqb q ""); injection Hreact as <-; try reflexivity;
      try exact Hm.
    unfold moderatorCatch; now destruct (isRateLimit429 _).
Qed.

Lemma step_manual (s s' : State) (ev : Event) :
  step guide profile s ev = Some s' -> mode s = MANUAL -> mode s' = MANUAL.
Proof.
  intros Hstep Hm. apply step_inv in Hstep as (s1 & Hreact & ->).
  rewrite rerender_mode. eauto using react_manual.
Qed.

Lemma In_delete {A : Type} (x : A) (l : list A) : forall i,
  In x (delete i l) -> In x l.
Proof.
  induction l as [|y l IH]; intros [|i]; cbn; auto.
  intros [->|H]; eauto.
Qed.

Lemma In_insert {A : Type} (x y : A) (l : list A) : forall i,
  In x (<[i := y]> l) -> x = y \/ In x l.
Proof.
  induction l as [|z l IH]; intros [|i]; cbn; auto.
  - intros [->|H]; auto.
  - intros [->|H]; auto. destruct (IH i H); auto.
Qed.

(** What [react] does to the suspended continuations: it never suspends
    [startConversation] again, and it resumes it only with the reply to the
    greeting. *)
Lemma react_greeting (s s1 : State) (ev : Event) :
  (In AwaitGreeting (pending s) ->
   pending s = [AwaitGreeting] /\ messages s = [] /\ isTyping s = true) ->
  react guide profile s ev = Some s1 ->
  In AwaitGreeting (pending s1) ->
  In AwaitGreeting (pending s) /\ pending s1 = pending s /\
  messages s1 = messages s /\ isTyping s1 = isTyping s.
Proof.
  intros Hg Hreact Hin. destruct ev; cbn in Hreact.
  - injection Hreact as <-. auto.
  - injection Hreact as <-. revert Hin. unfold handleManualSend.
    destruct (String.eqb _ _ || isTyping s) eqn:Hguard; [auto|].
    apply orb_false_iff in Hguard as [_ Htyping].
    assert (Hp : forall st, pending (match mode s with
                                     | AUTO => onSwitchToManual s
                                     | MANUAL => s
                                     end) = st -> pending s = st)
      by (intros st; now destruct (mode s)).
    cbn. intros Hin. apply in_app_or in Hin as [Hin|[Hin|[]]]; [|discriminate].
    assert (Hin' : In AwaitGreeting (pending s)) by (now destruct (mode s)).
    destruct (Hg Hin') as (_ & _ & Ht). congruence.
  - injection Hreact as <-. auto.
  - destruct (pending s !! i) as [t|] eqn:Hi; [|discriminate]. cbn in Hreact.
    destruct t; try discriminate; injection Hreact as <-; cbn in Hin.
    + apply In_insert in Hin as [Hin|Hin]; [discriminate|].
      destruct (Hg Hin) as (Hp & _). rewrite Hp in Hi.
      destruct i; cbn in Hi; discriminate.
    + apply In_delete in Hin.
      destruct (Hg Hin) as (Hp & _). rewrite Hp in Hi.
      destruct i; cbn in Hi; discriminate.
  - destruct (pending s !! i) as [t|] eqn:Hi; [|discriminate]. cbn in Hreact.
    assert (Hin' : In AwaitGreeting (pending s)).
    { destruct t, r; try discriminate; injection Hreact as <-;
        unfold moderatorCatch in Hin; try destruct (isRateLimit429 _);
        cbn in Hin;
        try (apply In_insert in Hin as [Hin|Hin]; [discriminate|]);
        try apply In_delete in Hin; exact Hin. }
    destruct (Hg Hin') as (Hp & _). rewrite Hp in Hi.
    destruct i; cbn in Hi; [|discriminate]. injection Hi as <-.
    exfalso. destruct r; injection Hreact as <-; cbn in Hin;
      rewrite Hp in Hin; cbn in Hin; exact Hin.
  - destruct (pending s !! i) as [t|] eqn:Hi; [|discriminate]. cbn in Hreact.
    destruct t; try discriminate. cbn in Hreact.
    exfalso.
    assert (Hin' : In AwaitGreeting (pending s)).
    { destruct (getAIInterviewerNextQuestion _ _ _ _) as [[q|]|e];
        try destruct (String.eqb q ""); injection Hreact as <-;
        unfold moderatorCatch in Hin; try destruct (isRateLimit429 _);
        cbn in Hin;
        try (apply In_insert in Hin as [Hin|Hin]; [discriminate|]);
        try apply In_delete in Hin; exact Hin. }
    destruct (Hg Hin') as (Hp & _). rewrite Hp in Hi.
    destruct i; cbn in Hi; discriminate.
Qed.

Lemma lookup_In {A : Type} (l : list A) (i : nat) (x : A) :
  l !! i = Some x -> In x l.
Proof.
  revert i. induction l as [|y l IH]; intros [|i]; cbn; try discriminate.
  - intros [= ->]. auto.
  - eauto.
Qed.

(** The updates of an event only append to the transcript, provided that the
    reply to the greeting finds it empty. *)
Lemma react_messages_prefix (s s1 : State) (ev : Event) :
  (In AwaitGreeting (pending s) -> messages s = []) ->
  react guide profile s ev = Some s1 ->
  messages s `prefix_of` messages s1.
Proof.
  intros Hg Hreact. destruct ev; cbn in Hreact.
  - now injection Hreact as <-.
  - injection Hreact as <-. unfold handleManualSend.
    destruct (_ || _); [reflexivity|].
    destruct (mode s); cbn; now apply prefix_app_r.
  - now injection Hreact as <-.
  - destruct (pending s !! i) as [[]|]; cbn in Hreact; try discriminate;
      now injection Hreact as <-.
  - destruct (pending s !! i) as [t|] eqn:Hi; [|discriminate].
    apply lookup_In in Hi. cbn in Hreact.
    destruct t, r; try discriminate; injection Hreact as <-;
      unfold moderatorCatch; try destruct (isRateLimit429 _); cbn;
      try reflexivity; try (now apply prefix_app_r).
    rewrite (Hg Hi). apply prefix_nil.
  - destruct (pending s !! i) as [[]|]; cbn in Hreact; try discriminate.
    destruct (getAIInterviewerNextQuestion _ _ _ _) as [[q|]|e];
      try destruct (String.eqb q ""); injection Hreact as <-;
      unfold moderatorCatch; try destruct (isRateLimit429 _); cbn;
      try reflexivity; now apply prefix_app_r.
Qed.

Lemma step_messages_prefix (s s' : State) (ev : Event) :
  invariant guide profile s ->
  step guide profile s ev = Some s' ->
  messages s `prefix_of` messages s'.
Proof.
  intros [Hg _] Hstep. apply step_inv in Hstep as (s1 & Hreact & ->).
  rewrite rerender_messages. eapply react_messages_prefix; [|exact Hreact].
  intros Hin. now destruct (Hg Hin) as (_ & ? & _).
Qed.

Lemma rerender_typing (old new : State) :
  isTyping new = true -> rerender old new = new.
Proof.
  intros Ht. destruct (rerender_cases old new) as [->|(_ & Hf & _)]; [reflexivity|].
  congruence.
Qed.

Lemma autoShape_ext (s s2 : State) :
  pending s2 = pending s -> messages s2 = messages s ->
  isTyping s2 = isTyping s ->
  autoShape guide profile s -> autoShape guide profile s2.
Proof.
  intros Hp Hm Ht.
  destruct 1 as [H|H|H H1 H2|H H1 H2|q H H1|H].
  - apply shape_quiet. congruence.
  - apply shape_greeting. congruence.
  - apply shape_pacing; [congruence..|]. unfold lastIsModel. now rewrite Hm.
  - apply shape_moderator; [congruence..|]. unfold lastIsModel. now rewrite Hm.
  - apply (shape_reply _ _ _ q); congruence.
  - apply shape_cooldown. congruence.
Qed.

(** After a render nothing is suspended but, possibly, a new moderator turn. *)
Lemma rerender_shape (old new : State) :
  pending new = [] -> autoShape guide profile (rerender old new).
Proof.
  intros Hp.
  destruct (rerender_cases old new) as [->|(_ & Ht & Hl & _ & ->)].
  - now apply shape_quiet.
  - apply shape_pacing; cbn; [now rewrite Hp|exact Ht|exact Hl].
Qed.

Lemma singleton_lookup {A : Type} (t x : A) (i : nat) :
  [t] !! i = Some x -> i = 0%nat /\ x = t.
Proof. destruct i as [|[|i]]; cbn; [intros [= ->]; auto|discriminate..]. Qed.

(** [handleManualSend] in automated mode: nothing, or a switch to manual. *)
Lemma handleManualSend_auto (s : State) (now : Z) :
  mode s = AUTO ->
  handleManualSend now s = s \/ mode (handleManualSend now s) = MANUAL.
Proof.
  intros Hm. unfold handleManualSend.
  destruct (_ || _); [now left|]. right. now rewrite Hm.
Qed.

Lemma invariant_step (s s' : State) (ev : Event) :
  invariant guide profile s ->
  step guide profile s ev = Some s' ->
  invariant guide profile s'.
Proof.
  intros [Hg Ha] Hstep. apply step_inv in Hstep as (s1 & Hreact & ->).
  split.
  - intros Hin.
    assert (Hin1 : In AwaitGreeting (pending s1)).
    { destruct (rerender_cases s s1) as [Hr|(_ & _ & _ & _ & Hr)];
        rewrite Hr in Hin; [exact Hin|].
      cbn in Hin. apply in_app_or in Hin as [Hin|[Hin|[]]];
        [exact Hin|discriminate]. }
    destruct (react_greeting s s1 ev Hg Hreact Hin1) as (Hin0 & Hp & Hm & Ht).
    destruct (Hg Hin0) as (Hp0 & Hm0 & Ht0).
    rewrite rerender_typing by congruence.
    repeat split; congruence.
  - rewrite rerender_mode. intros Hm1.
    assert (Hm : mode s = AUTO).
    { destruct (mode s) eqn:E; [|reflexivity].
      rewrite (react_manual s s1 ev Hreact E) in Hm1. discriminate. }
    specialize (Ha Hm).
    destruct ev; cbn in Hreact.
    + injection Hreact as <-. rewrite rerender_same_deps by reflexivity.
      eapply autoShape_ext; [..|exact Ha]; reflexivity.
    + injection Hreact as <-.
      destruct (handleManualSend_auto s now Hm) as [Hr|Hr]; [|congruence].
      rewrite Hr, rerender_same_deps by reflexivity. exact Ha.
    + injection Hreact as <-. discriminate Hm1.
    + destruct Ha as [H|H|H H1 H2|H H1 H2|q H H1|H]; rewrite H in Hreact;
        try (destruct i as [|[|i]]); cbn in Hreact; try discriminate;
        injection Hreact as <-.
      * rewrite rerender_same_deps by reflexivity.
        apply shape_moderator; cbn; [now rewrite H|exact H1|exact H2].
      * apply rerender_shape. cbn. now rewrite H.
    + destruct Ha as [H|H|H H1 H2|H H1 H2|q H H1|H]; rewrite H in Hreact;
        try (destruct i as [|[|i]]); cbn in Hreact; try discriminate;
        destruct r as [response_text|e]; try discriminate;
        injection Hreact as <-; unfold moderatorCatch;
        try destruct (isRateLimit429 e);
        try (apply rerender_shape; cbn; now rewrite H).
      rewrite rerender_typing by exact H1.
      apply shape_cooldown. cbn. now rewrite H.
    + destruct Ha as [H|H|H H1 H2|H H1 H2|q H H1|H]; rewrite H in Hreact;
        try (destruct i as [|[|i]]); cbn in Hreact; try discriminate.
      destruct (getAIInterviewerNextQuestion _ _ _ _) as [[q|]|e];
        try destruct (String.eqb q ""); injection Hreact as <-;
        try discriminate Hm1.
      * rewrite rerender_typing by reflexivity.
        apply (shape_reply _ _ _ q); cbn; [now rewrite H|reflexivity].
      * unfold moderatorCatch. destruct (isRateLimit429 e).
        -- rewrite rerender_same_deps by reflexivity.
           apply shape_cooldown. cbn. now rewrite H.
        -- apply rerender_shape. cbn. now rewrite H.
Qed.

Lemma invariant_mount (m : InterviewMode) : invariant guide profile (mount m).
Proof.
  unfold mount. cbn. rewrite rerender_typing by reflexivity.
  split; cbn.
  - auto.
  - intros _. now apply shape_greeting.
Qed.

(** Every state of the component satisfies the invariant. *)
Lemma reachable_invariant (s : State) :
  reachable guide profile s -> invariant guide profile s.
Proof.
  induction 1 as [m|s s' ev _ IH Hstep].
  - apply invariant_mount.
  - exact (invariant_step s s' ev IH Hstep).
Qed.

Lemma steps_reachable (evs : list Event) : forall (s s' : State),
  reachable guide profile s ->
  steps guide profile s evs = Some s' ->
  reachable guide profile s'.
Proof.
  induction evs as [|ev evs IH]; intros s s' Hreach Hsteps; cbn in Hsteps.
  - now injection Hsteps as <-.
  - destruct (step guide profile s ev) as [s1|] eqn:Hstep; [|discriminate].
    cbn in Hsteps. eapply IH; [|exact Hsteps].
    eapply reachable_step; eassumption.
Qed.

(** C5.  In every reachable state of the interview, whatever happens next (the
    reply to the scripted opening, a step of a moderator turn, a manual send,
    a reply or a failure of the chat with its placeholder, a switch of mode)
    leaves a transcript that has the transcript before it as a prefix:
    messages are appended, never edited or removed. *)
Theorem transcript_append_only (s s' : State) (ev : Event) :
  reachable guide profile s ->
  step guide profile s ev = Some s' ->
  messages s `prefix_of` messages s'.
Proof.
  intros Hreach. apply step_messages_prefix. now apply reachable_invariant.
Qed.

(** Once nothing is suspended, nothing is suspended again before the
    transcript changes. *)
Lemma quiescent_until_transcript_changes (s1 : State) (evs : list Event) :
  forall s s',
    reachable guide profile s ->
    messages s1 `prefix_of` messages s ->
    (messages s = messages s1 -> pending s = []) ->
    steps guide profile s evs = Some s' ->
    messages s' = messages s1 -> pending s' = [].
Proof.
  induction evs as [|ev evs IH]; intros s s' Hreach Hpre Hq Hsteps Hsame;
    cbn in Hsteps.
  - injection Hsteps as <-. auto.
  - destruct (step guide profile s ev) as [s2|] eqn:Hstep; [|discriminate].
    cbn in Hsteps.
    pose proof (step_messages_prefix s s2 ev (reachable_invariant s Hreach) Hstep)
      as Hpre2.
    eapply (IH s2 s'); eauto.
    + eapply reachable_step; eassumption.
    + now transitivity (messages s).
    + intros Hsame2.
      assert (Heq : messages s = messages s1).
      { apply (anti_symm prefix); [|exact Hpre]. now rewrite <- Hsame2. }
      specialize (Hq Heq).
      apply step_inv in Hstep as (s3 & Hreact & ->).
      rewrite rerender_messages in Hsame2.
      destruct ev; cbn in Hreact; try (rewrite Hq in Hreact; discriminate).
      * injection Hreact as <-. now rewrite rerender_same_deps.
      * injection Hreact as <-. revert Hsame2. unfold handleManualSend.
        destruct (_ || _); [intros _; now rewrite rerender_same_deps|].
        intros Hsame2. exfalso.
        assert (Hlen : List.length (messages s1 ++ [userMessage (trim (input s)) now false])
                       = List.length (messages s1)).
        { rewrite <- Hsame2 at 2. cbn. f_equal. f_equal.
          destruct (mode s); cbn; congruence. }
        rewrite length_app in Hlen. cbn in Hlen. lia.
      * injection Hreact as <-. now rewrite rerender_manual.
Qed.

(** A failure of the moderator call.  In a reachable state in automated mode
    in which the moderator call is in flight, the call was made with the current transcript, the guide and
    the persona.  When it fails with an error that the loop takes for a rate
    limit (status 429, or a message that mentions 429), the loop waits for the
    cooldown of 5000 ms, the retry trigger makes the effect run again, and
    after the pacing delay the moderator is called again with the same
    transcript, guide and persona; the transcript is unchanged.  When it fails
    with any other error, the moderator status becomes idle and nothing else
    changes: the transcript and the mode are as before, nothing is suspended,
    and nothing is suspended again as long as the transcript stays the
    same. *)
Theorem moderator_failure_handling (s : State) (i : nat)
    (history : list ChatMessage) (g : list string) (p : PersonaProfile)
    (ai : Backend) (now : Z) (e : JsError) :
  reachable guide profile s ->
  mode s = AUTO ->
  pending s !! i = Some (AwaitModerator history g p) ->
  getAIInterviewerNextQuestion ai history g p = Err e ->
  history = messages s /\ g = guide /\ p = profile /\
  if isRateLimit429 e then
    exists s1 s2 s3,
      step guide profile s (ModeratorAnswered i ai now) = Some s1 /\
      s1 = setPending [AwaitCooldown 5000] s /\
      step guide profile s1 (TimerFired 0) = Some s2 /\
      s2 = setPending [AwaitPacing 3000 (messages s)]
             (setAiModeratorStatus Thinking
                (setRetryTrigger (retryTrigger s + 1) s)) /\
      step guide profile s2 (TimerFired 0) = Some s3 /\
      s3 = setPending [AwaitModerator (messages s) guide profile] s2
  else
    exists s1,
      step guide profile s (ModeratorAnswered i ai now) = Some s1 /\
      s1 = setPending [] (setAiModeratorStatus Idle s) /\
      forall evs s',
        steps guide profile s1 evs = Some s' ->
        messages s' = messages s -> pending s' = [].
Proof.
  intros Hreach Hm Hi Hfail.
  pose proof (reachable_invariant s Hreach) as [_ Ha].
  destruct (Ha Hm) as [H|H|H H1 H2|H H1 H2|q H H1|H]; rewrite H in Hi;
    apply singleton_lookup in Hi as [-> Ht] || (destruct i; discriminate);
    try discriminate.
  injection Ht as -> -> ->.
  split; [reflexivity|]. split; [reflexivity|]. split; [reflexivity|].
  assert (Hstep : step guide profile s (ModeratorAnswered 0 ai now)
                  = Some (rerender s (moderatorCatch 0 e s))).
  { unfold step, react. rewrite H. cbn. now rewrite Hfail. }
  unfold moderatorCatch in Hstep. rewrite H in Hstep. cbn in Hstep.
  destruct (isRateLimit429 e).
  - rewrite rerender_same_deps in Hstep by reflexivity.
    eexists _, _, _. split; [exact Hstep|]. split; [reflexivity|].
    assert (Hloop : rerender (setPending [AwaitCooldown 5000] s)
                      (setPending [] (setRetryTrigger (retryTrigger s + 1) s))
                    = setPending [AwaitPacing 3000 (messages s)]
                        (setAiModeratorStatus Thinking
                           (setRetryTrigger (retryTrigger s + 1) s))).
    { unfold rerender. destruct (decide _) as [Heq|_].
      - cbn in Heq. injection Heq as Heq. lia.
      - unfold runAiModeratorLoop. cbn. rewrite Hm, H1.
        destruct H2 as (m & -> & ->). reflexivity. }
    split; [|split; [reflexivity|split; [|reflexivity]]].
    + exact (f_equal Some Hloop).
    + unfold step. cbn. now rewrite rerender_same_deps.
  - rewrite rerender_same_deps in Hstep by reflexivity.
    eexists. split; [exact Hstep|]. split; [reflexivity|].
    intros evs s' Hsteps Hsame.
    apply (quiescent_until_transcript_changes
             (setPending [] (setAiModeratorStatus Idle s)) evs
             (setPending [] (setAiModeratorStatus Idle s)) s').
    + exact (reachable_step guide profile s _ (ModeratorAnswered 0 ai now)
               Hreach Hstep).
    + reflexivity.
    + reflexivity.
    + exact Hsteps.
    + exact Hsame.
Qed.

(** The [catch] block also receives a failure of the chat call that follows
    the moderator's question: the question stays in the transcript and the
    typing flag stays set, whatever the error. *)
Lemma persona_reply_failure_keeps_typing (s s' : State) (i : nat)
    (nextQuestion : string) (e : JsError) (now : Z) :
  pending s !! i = Some (AwaitPersonaReply nextQuestion) ->
  step guide profile s (ChatReplied i (Err e) now) = Some s' ->
  messages s' = messages s /\ isTyping s' = isTyping s /\ mode s' = mode s.
Proof.
  intros Hi Hstep. apply step_inv in Hstep as (s1 & Hreact & ->).
  rewrite rerender_messages, rerender_isTyping, rerender_mode.
  unfold react in Hreact. rewrite Hi in Hreact. cbn in Hreact.
  injection Hreact as <-. unfold moderatorCatch.
  destruct (isRateLimit429 e); auto.
Qed.

(** C10.  When the reply of the backend to the moderator request has no text,
    or a text that is empty or white space only, the moderator function
    returns [null]; the loop then sets the moderator status to done and the
    mode to manual and appends nothing, which is the state it reaches for a
    reply that holds the completion marker. *)
Theorem blank_reply_completes_interview (s : State) (i : nat)
    (history : list ChatMessage) (g : list string) (p : PersonaProfile)
    (ai : Backend) (now : Z) (response : Response) :
  pending s !! i = Some (AwaitModerator history g p) ->
  fst (runWithRetry (ai (ReqModerator history g p)) 5 4000) = Ok response ->
  (response_text response = None \/
   exists t, response_text response = Some t /\ whitespace_only t) ->
  getAIInterviewerNextQuestion ai history g p = Ok None /\
  step guide profile s (ModeratorAnswered i ai now) =
    Some (setPending (delete i (pending s))
            (setMode MANUAL (setAiModeratorStatus Done s))) /\
  forall (ai' : Backend) (response' : Response) (t' : string),
    fst (runWithRetry (ai' (ReqModerator history g p)) 5 4000) = Ok response' ->
    response_text response' = Some t' ->
    includes (trim t') "INTERVIEW_COMPLETE" = true ->
    step guide profile s (ModeratorAnswered i ai' now) =
    step guide profile s (ModeratorAnswered i ai now).
Proof.
  intros Hi Hresp Hblank.
  assert (Hnull : getAIInterviewerNextQuestion ai history g p = Ok None).
  { unfold getAIInterviewerNextQuestion. rewrite Hresp. cbn.
    destruct Hblank as [->|(t & -> & Hws)]; cbn; [reflexivity|].
    now rewrite (trim_whitespace_only t Hws). }
  assert (Hdone : forall ai0,
            getAIInterviewerNextQuestion ai0 history g p = Ok None ->
            step guide profile s (ModeratorAnswered i ai0 now) =
            Some (setPending (delete i (pending s))
                    (setMode MANUAL (setAiModeratorStatus Done s)))).
  { intros ai0 H0. unfold step, react. rewrite Hi. cbn. rewrite H0. cbn.
    now rewrite rerender_manual. }
  split; [exact Hnull|]. split; [now apply Hdone|].
  intros ai' response' t' Hresp' Htext Hmark.
  rewrite (Hdone ai Hnull). apply Hdone.
  unfold getAIInterviewerNextQuestion. rewrite Hresp'. cbn.
  rewrite Htext. cbn. now rewrite Hmark.
Qed.

End Component.

Lemma moderatorAsked_reachable :
  reachable Demo.guide Demo.profile Demo.moderatorAsked.
Proof.
  apply (steps_reachable Demo.guide Demo.profile
           [ChatReplied 0 (Ok (Some "你好，我是小林。")) 1; TimerFired 0]
           (mount AUTO)).
  - apply reachable_mount.
  - reflexivity.
Qed.

Lemma transcript_append_only_witness :
  messages (mount AUTO) `prefix_of` [modelMessage "你好。" 1].
Proof.
  exact (transcript_append_only Demo.guide Demo.profile (mount AUTO) _
           (ChatReplied 0 (Ok None) 1)
           (reachable_mount Demo.guide Demo.profile AUTO) eq_refl).
Defined.

Lemma moderator_failure_handling_witness :
  exists s1,
    step Demo.guide Demo.profile Demo.moderatorAsked
      (ModeratorAnswered 0 Demo.backendBusy 5) = Some s1 /\
    pending s1 = [AwaitCooldown 5000].
Proof.
  destruct (moderator_failure_handling Demo.guide Demo.profile
              Demo.moderatorAsked 0 (messages Demo.moderatorAsked)
              Demo.guide Demo.profile Demo.backendBusy 5 Demo.rateLimited)
    as (_ & _ & _ & Hrl).
  - exact moderatorAsked_reachable.
  - reflexivity.
  - reflexivity.
  - reflexivity.
  - change (isRateLimit429 Demo.rateLimited) with true in Hrl.
    destruct Hrl as (s1 & s2 & s3 & H1 & -> & _).
    eexists. split; [exact H1|reflexivity].
Defined.

Lemma blank_reply_completes_interview_witness :
  getAIInterviewerNextQuestion Demo.backendBlank
    (messages Demo.moderatorAsked) Demo.guide Demo.profile = Ok None.
Proof.
  refine (proj1 (blank_reply_completes_interview Demo.guide Demo.profile
                   Demo.moderatorAsked 0 (messages Demo.moderatorAsked)
                   Demo.guide Demo.profile Demo.backendBlank 7 _
                   eq_refl eq_refl _)).
  right. eexists. split; [reflexivity|].
  apply Blank_1; [reflexivity|]. apply Blank_1; [reflexivity|]. apply Blank_nil.
Defined.

End ChatFacts.

(** * Further properties *)

(** ** The service layer *)

Module ServiceFacts.
Import Measure.

Lemma totalWait_app (l1 l2 : list Effect) :
  totalWait (l1 ++ l2) = totalWait l1 + totalWait l2.
Proof.
  induction l1 as [|[n|ms] l1 IH]; cbn; [reflexivity|exact IH|].
  fold (totalWait (l1 ++ l2)) (totalWait l1). lia.
Qed.

Lemma attempts_app (l1 l2 : list Effect) :
  attempts (l1 ++ l2) = (attempts l1 + attempts l2)%nat.
Proof.
  unfold attempts. now rewrite List.filter_app, length_app.
Qed.

(** The log of a run with [k] retries: [k + 1] attempts and a geometric sum
    of waits. *)
Lemma backoff_log_measures (delay : Z) (n k : nat) :
  let log := (flat_map (fun i => [Invoke (n + i); Sleep (delay * 2 ^ Z.of_nat i)])
                (seq 0 k) ++ [Invoke (n + k)])%list in
  attempts log = S k /\ totalWait log = delay * (2 ^ Z.of_nat k - 1).
Proof.
  cbv zeta. rewrite attempts_app, totalWait_app. cbn [attempts totalWait
    List.filter List.length fold_right]. rewrite Z.add_0_r.
  induction k as [|k [IHa IHw]].
  - cbn. split; [reflexivity|lia].
  - rewrite seq_S, flat_map_app, attempts_app, totalWait_app. cbn [flat_map app].
    split.
    + rewrite Nat.add_1_r in IHa. injection IHa as IHa.
      rewrite IHa. cbn. lia.
    + rewrite IHw. cbn [totalWait fold_right Nat.add].
      rewrite Nat2Z.inj_succ, Z.pow_succ_r by lia. lia.
Qed.

(** X1.  A run of the retry helper makes between one and [retries + 1]
    attempts, and the time it waits is [delay * (2 ^ k - 1)] for the number
    [k] of retries it made: at most [delay * (2 ^ retries - 1)]. *)
Theorem runWithRetry_wait_bound {T : Type} (operation : nat -> result T)
    (retries : nat) (delay : Z) :
  0 <= delay ->
  let log := snd (runWithRetry operation retries delay) in
  (1 <= attempts log <= retries + 1)%nat /\
  totalWait log = delay * (2 ^ Z.of_nat (attempts log - 1) - 1) /\
  0 <= totalWait log <= delay * (2 ^ Z.of_nat retries - 1).
Proof.
  intros Hdelay. cbv zeta. unfold runWithRetry.
  destruct (runWithRetry_from_spec operation retries delay 0)
    as (k & Hk & _ & Hlog & _).
  rewrite Hlog.
  destruct (backoff_log_measures delay 0 k) as [Ha Hw]. cbv zeta in Ha, Hw.
  rewrite Ha, Hw. replace (S k - 1)%nat with k by lia.
  split; [lia|]. split; [reflexivity|].
  assert (0 < 2 ^ Z.of_nat k) by (apply Z.pow_pos_nonneg; lia).
  assert (2 ^ Z.of_nat k <= 2 ^ Z.of_nat retries)
    by (apply Z.pow_le_mono_r; lia).
  nia.
Qed.

Lemma runWithRetry_wait_bound_witness :
  totalWait (snd (runWithRetry (fun n => @Err nat Demo.rateLimited) 5 4000))
    <= 4000 * (2 ^ 5 - 1).
Proof.
  destruct (runWithRetry_wait_bound (fun n => @Err nat Demo.rateLimited) 5 4000)
    as (_ & _ & _ & Hle).
  - lia.
  - exact Hle.
Defined.

(** X2.  The test of the interview loop for a rate limit is narrower than the
    one of the retry helper: what the loop takes for a rate limit the helper
    does too, and the errors that only the helper takes for one are those
    without status 429 and without 429 in the message that have code 429 or
    mention a quota. *)
Theorem loop_rate_limit_is_narrower (e : JsError) :
  (ChatInterface.isRateLimit429 e = true -> isRateLimit e = true) /\
  (isRateLimit e = true /\ ChatInterface.isRateLimit429 e = false <->
   is429 (status e) = false /\ opt_includes (message e) "429" = false /\
   (is429 (code e) = true \/ opt_includes (message e) "quota" = true)).
Proof.
  unfold ChatInterface.isRateLimit429, isRateLimit.
  destruct (is429 (status e)), (is429 (code e)),
    (opt_includes (message e) "429"), (opt_includes (message e) "quota");
    cbn; intuition congruence.
Qed.

(** X3.  When the backend answers the moderator request, the moderator
    function returns [null] exactly when the reply has no text, or a text of
    white space only, or a text that holds the completion marker anywhere;
    a question that it returns is the trimmed text, is not empty and does
    not hold the marker. *)
Theorem nextQuestion_cases (ai : Backend) (history : list ChatMessage)
    (guide : list string) (profile : PersonaProfile) (response : Response) :
  fst (runWithRetry (ai (ReqModerator history guide profile)) 5 4000)
    = Ok response ->
  (getAIInterviewerNextQuestion ai history guide profile = Ok None <->
   response_text response = None \/
   exists t, response_text response = Some t /\
     (whitespace_only t \/ includes (trim t) "INTERVIEW_COMPLETE" = true)) /\
  (forall q,
     getAIInterviewerNextQuestion ai history guide profile = Ok (Some q) ->
     exists t, response_text response = Some t /\ q = trim t /\ q <> "" /\
       includes q "INTERVIEW_COMPLETE" = false).
Proof.
  intros Hresp. unfold getAIInterviewerNextQuestion. rewrite Hresp. cbn.
  destruct (response_text response) as [t|]; cbn.
  - destruct (includes (trim t) "INTERVIEW_COMPLETE") eqn:Hmark.
    + split; [|discriminate]. split; eauto.
    + split.
      * split.
        -- intros Hnull. right. exists t. split; [reflexivity|]. left.
           apply trim_empty_iff. destruct (trim t); [reflexivity|discriminate].
        -- intros [H|(t' & [= <-] & [Hws|Hm])]; [discriminate| |congruence].
           now rewrite (trim_whitespace_only t Hws).
      * intros q Hq. exists t. split; [reflexivity|].
        destruct (trim t) eqn:Ht; [discriminate|].
        injection Hq as <-. repeat split; [discriminate|exact Hmark].
  - split; [|discriminate]. split; auto.
Qed.

Lemma nextQuestion_cases_witness :
  getAIInterviewerNextQuestion Demo.backendBlank [] Demo.guide Demo.profile
    = Ok None.
Proof.
  apply (nextQuestion_cases Demo.backendBlank [] Demo.guide Demo.profile _
           eq_refl).
  right. eexists. split; [reflexivity|]. left.
  apply Blank_1; [reflexivity|]. apply Blank_1; [reflexivity|]. apply Blank_nil.
Defined.

(** X4.  When the moderator function rejects, the error is the one of the last
    attempt on the backend; if the retry helper takes it for a rate limit, the
    backend has been tried six times and 124 seconds have been spent
    waiting. *)
Theorem moderator_rejection_after_retries (ai : Backend)
    (history : list ChatMessage) (guide : list string)
    (profile : PersonaProfile) (e : JsError) :
  getAIInterviewerNextQuestion ai history guide profile = Err e ->
  let operation := ai (ReqModerator history guide profile) in
  let log := snd (runWithRetry operation 5 4000) in
  operation (attempts log - 1)%nat = Err e /\
  (isRateLimit e = true -> attempts log = 6%nat /\ totalWait log = 124000).
Proof.
  intros Hfail. cbv zeta. unfold getAIInterviewerNextQuestion in Hfail.
  unfold runWithRetry in *.
  destruct (runWithRetry_from_spec (ai (ReqModerator history guide profile))
              5 4000 0) as (k & Hk & _ & Hlog & Hres & Hlast).
  destruct (backoff_log_measures 4000 0 k) as [Ha Hw]. cbv zeta in Ha, Hw.
  rewrite Hlog, Ha, Hw. replace (S k - 1)%nat with k by lia.
  rewrite Hres in Hfail. cbn in Hfail, Hres, Hlast.
  destruct (ai (ReqModerator history guide profile) k) as [response|e'] eqn:Hop.
  - cbn in Hfail. destruct (opt_includes _ _); discriminate.
  - cbn in Hfail. injection Hfail as ->. split; [reflexivity|].
    intros Hrl. destruct (Hlast e eq_refl) as [Hno| ->]; [congruence|].
    split; reflexivity.
Qed.

Lemma moderator_rejection_after_retries_witness :
  attempts (snd (runWithRetry
                   (Demo.backendBusy (ReqModerator [] Demo.guide Demo.profile))
                   5 4000)) = 6%nat.
Proof.
  destruct (moderator_rejection_after_retries Demo.backendBusy [] Demo.guide
              Demo.profile Demo.rateLimited eq_refl) as [_ H].
  exact (proj1 (H eq_refl)).
Defined.

(** X5.  Guide generation never rejects.  Its guide is the fallback when the
    backend fails, when the reply is no JSON and when the reply is the JSON
    [null]; it is the empty guide, not the fallback, when the reply is an
    object without [questions]. *)
Theorem generateDiscussionGuide_cases (rt : Runtime) (ai : Backend)
    (industry : string) (profile : PersonaProfile)
    (objectives userQuestions : string) :
  let backend :=
    fst (runWithRetry (ai (ReqGuide industry profile objectives userQuestions))
           5 4000) in
  exists guide,
    Service.generateDiscussionGuide ai industry profile objectives userQuestions
      = Ok guide /\
    (forall e, backend = Err e -> guide = fallbackGuide) /\
    (forall response, backend = Ok response ->
       JSON_parse (str_or (response_text response) "{}") = None ->
       guide = fallbackGuide) /\
    (forall response, backend = Ok response ->
       JSON_parse (str_or (response_text response) "{}") = Some JNull ->
       guide = fallbackGuide) /\
    (forall response fields, backend = Ok response ->
       JSON_parse (str_or (response_text response) "{}") = Some (JObj fields) ->
       assoc "questions" fields = None ->
       guide = []).
Proof.
  cbv zeta. unfold Service.generateDiscussionGuide, parse.
  destruct (fst (runWithRetry _ 5 4000)) as [response|e]; cbn.
  - destruct (JSON_parse (str_or (response_text response) "{}")) as [j|] eqn:Hp;
      cbn.
    + destruct (get_prop j "questions") as [q|e] eqn:Hq; cbn;
        eexists; (split; [reflexivity|]); (split; [discriminate|]).
      * split; [intros r [= <-] Hn; congruence|].
        split.
        -- intros r [= <-] Hn. rewrite Hp in Hn. injection Hn as ->.
           discriminate Hq.
        -- intros r fields [= <-] Hn Ha. rewrite Hp in Hn. injection Hn as ->.
           cbn in Hq. injection Hq as <-. now rewrite Ha.
      * split; [reflexivity|]. split; [reflexivity|].
        intros r fields [= <-] Hn Ha. rewrite Hp in Hn. injection Hn as ->.
        discriminate Hq.
    + eexists. split; [reflexivity|]. split; [discriminate|].
      split; [reflexivity|]. split; [reflexivity|].
      intros r fields [= <-] Hn. congruence.
  - eexists. split; [reflexivity|]. split; [reflexivity|].
    split; [discriminate|]. split; discriminate.
Qed.

Lemma runWithRetry_from_ext {T : Type} (op op' : nat -> result T)
    (retries : nat) : forall (delay : Z) (n : nat),
  (forall i, op i = op' i) ->
  runWithRetry_from op retries delay n = runWithRetry_from op' retries delay n.
Proof.
  induction retries as [|r IH]; intros delay n Hext; cbn; rewrite <- Hext.
  - reflexivity.
  - destruct (op n) as [v|e]; [reflexivity|].
    destruct (isRateLimit e); [|reflexivity]. now rewrite (IH _ _ Hext).
Qed.

(** X6.  The outcome of persona generation does not depend on how the backend
    treats the image request, but for the image itself: on two backends that
    treat the text request alike it rejects with the same error, or resolves
    with the same text, name, summary, scores and sources. *)
Theorem persona_independent_of_image (rt : Runtime) (ai ai' : Backend)
    (industry targetAudience : string) (clarifications : list string)
    (materials : list ReferenceMaterial) :
  (forall n,
     ai (ReqPersonaText industry targetAudience clarifications materials) n =
     ai' (ReqPersonaText industry targetAudience clarifications materials) n) ->
  match
    Service.generatePersonaProfile ai industry targetAudience clarifications
      materials,
    Service.generatePersonaProfile ai' industry targetAudience clarifications
      materials
  with
  | Ok (p, src), Ok (p', src') =>
      rawMarkdown p = rawMarkdown p' /\ name p = name p' /\
      summary p = summary p' /\ scores p = scores p' /\ src = src'
  | Err e, Err e' => e = e'
  | _, _ => False
  end.
Proof.
  intros Hext. unfold Service.generatePersonaProfile, runWithRetry.
  rewrite (runWithRetry_from_ext _ _ 5 5000 0 Hext).
  destruct (fst (runWithRetry_from _ 5 5000 0)) as [response|e]; cbn;
    [|reflexivity].
  destruct (get_prop (resultOf response) "markdownProfile") as [mp|e]; cbn;
    [|reflexivity].
  destruct (get_prop (resultOf response) "scores") as [rs|e]; cbn;
    [|reflexivity].
  destruct (json_or mp (JStr "# 生成失败")); cbn; auto.
Qed.

Lemma persona_independent_of_image_witness :
  match
    @Service.generatePersonaProfile Demo.runtime Demo.backendReplying
      "咖啡机" "预算敏感型大学生" [] [],
    @Service.generatePersonaProfile Demo.runtime Sample.backendWithImage
      "咖啡机" "预算敏感型大学生" [] []
  with
  | Ok (p, _), Ok (p', _) =>
      scores p = scores p' /\ imageUrl p = None /\
      imageUrl p' = Some "iVBORw0KGgo="
  | _, _ => False
  end.
Proof.
  pose proof (persona_independent_of_image Demo.runtime Demo.backendReplying
                Sample.backendWithImage "咖啡机" "预算敏感型大学生" [] []
                (fun n => eq_refl)) as H.
  vm_compute in H. vm_compute. destruct H as (_ & _ & _ & Hs & _).
  split; [exact Hs|]. split; reflexivity.
Defined.

Lemma str_or_truthy (t : option string) (d : string) :
  d <> "" -> truthy (JStr (str_or t d)) = true.
Proof.
  intros Hd. cbn. destruct t as [[|c t]|]; cbn; try reflexivity;
    destruct d; try reflexivity; congruence.
Qed.

(** X7.  When the reply to the persona request is no JSON, persona generation
    resolves all the same: the profile holds the raw text of the reply as its
    markdown and the default scores, and the sources are the web chunks of the
    reply. *)
Theorem persona_unparsable_reply (rt : Runtime) (ai : Backend)
    (industry targetAudience : string) (clarifications : list string)
    (materials : list ReferenceMaterial) (response : Response) :
  fst (runWithRetry
         (ai (ReqPersonaText industry targetAudience clarifications materials))
         5 5000) = Ok response ->
  JSON_parse (jsonStringOf response) = None ->
  exists profile,
    Service.generatePersonaProfile ai industry targetAudience clarifications
      materials
    = Ok (profile, omap (fun web => web) (groundingChunks response)) /\
    rawMarkdown profile = str_or (response_text response) "# 生成失败" /\
    scores profile = Some defaultScores.
Proof.
  intros Hresp Hparse. unfold Service.generatePersonaProfile.
  rewrite Hresp. cbn. unfold resultOf. rewrite Hparse. cbn.
  pose proof (str_or_truthy (response_text response) "# 生成失败") as Ht.
  cbn in Ht. rewrite Ht by discriminate.
  eexists. split; [reflexivity|]. split; reflexivity.
Qed.

Lemma persona_unparsable_reply_witness :
  exists profile sources,
    @Service.generatePersonaProfile Demo.runtime Sample.backendProse
      "咖啡机" "预算敏感型大学生" [] [] = Ok (profile, sources) /\
    rawMarkdown profile = "# 小林 是一位大学生" /\
    List.length sources = 1%nat.
Proof.
  destruct (persona_unparsable_reply Demo.runtime Sample.backendProse
              "咖啡机" "预算敏感型大学生" [] [] _ eq_refl eq_refl)
    as (profile & Hgen & Hmd & _).
  eexists _, _. split; [exact Hgen|]. split; [exact Hmd|reflexivity].
Defined.

(** X8.  Persona generation rejects in exactly two ways: with the error of the
    backend, when the text request fails; and with a [TypeError], when the
    reply parses to [null] or to an object whose [markdownProfile] is truthy
    and not a string. *)
Theorem persona_rejections (rt : Runtime) (ai : Backend)
    (industry targetAudience : string) (clarifications : list string)
    (materials : list ReferenceMaterial) (e : JsError) :
  let backend :=
    fst (runWithRetry
           (ai (ReqPersonaText industry targetAudience clarifications materials))
           5 5000) in
  Service.generatePersonaProfile ai industry targetAudience clarifications
    materials = Err e <->
  backend = Err e \/
  exists response,
    backend = Ok response /\ e = typeError /\
    (resultOf response = JNull \/
     exists fields v,
       resultOf response = JObj fields /\
       assoc "markdownProfile" fields = Some v /\ truthy v = true /\
       forall md, v <> JStr md).
Proof.
  cbv zeta. unfold Service.generatePersonaProfile.
  destruct (fst (runWithRetry _ 5 5000)) as [response|e0]; cbn -[runWithRetry].
  2:{ split; [intros [= ->]; now left|].
      intros [[= ->]|(r & H & _)]; [reflexivity|discriminate]. }
  destruct (resultOf response) as [|b|n|str|items|fields] eqn:Hres;
    cbn -[runWithRetry].
  1:{ split; [intros [= <-]; right; eauto 10|].
      intros [H|(r & _ & -> & _)]; [discriminate|reflexivity]. }
  1-4: split; [discriminate|];
    intros [H|(r & [= <-] & _ & [H|(f & v & H & _)])]; congruence.
  destruct (assoc "markdownProfile" fields) as [v|] eqn:Hmp;
    cbn -[runWithRetry].
  2:{ split; [discriminate|].
      intros [H|(r & [= <-] & _ & [H|(f & v & H & Hv & _)])]; congruence. }
  destruct (truthy v) eqn:Htv.
  2:{ split; [discriminate|].
      intros [H|(r & [= <-] & _ & [H|(f & v' & H & Hv & Ht & _)])];
        congruence. }
  destruct v as [|b|n|md|items|fs]; cbn in Htv; try discriminate.
  3:{ split; [discriminate|].
      intros [H|(r & [= <-] & _ & [H|(f & v' & H & Hv & Ht & Hns)])];
        congruence. }
  all: split; [intros [= <-]; right; exists response; split; [reflexivity|];
               split; [reflexivity|]; right; eexists _, _;
               split; [exact Hres|]; split; [exact Hmp|];
               split; [exact Htv|discriminate]
              |intros [H|(r & _ & -> & _)]; [discriminate|reflexivity]].
Qed.

(** X9.  The image of a profile is the data of the first part of the image
    reply that has any: it is not empty, it is the data of a part, and there is
    none only if no part has data. *)
Theorem firstInlineData_spec (parts : list (option string)) :
  (forall data, firstInlineData parts = Some data ->
     data <> "" /\ exists before after,
       parts = (before ++ Some data :: after)%list /\
       forall d, In (Some d) before -> d = "") /\
  (firstInlineData parts = None <-> forall d, In (Some d) parts -> d = "").
Proof.
  induction parts as [|[d0|] parts [IHs IHn]]; cbn.
  - split; [discriminate|]. split; [intros _ d []|reflexivity].
  - destruct (String.eqb_spec d0 "") as [->|Hne].
    + split.
      * intros data Hd. destruct (IHs data Hd) as (Hne & b & a & -> & Hb).
        split; [exact Hne|]. exists (Some "" :: b), a. split; [reflexivity|].
        intros d [[= <-]|Hin]; auto.
      * rewrite IHn. split; [intros H d [[= <-]|Hin]; auto|auto].
    + split.
      * intros data [= <-]. split; [exact Hne|].
        exists [], parts. split; [reflexivity|]. intros d [].
      * split; [discriminate|]. intros H. exfalso. apply Hne, H. now left.
  - split.
    + intros data Hd. destruct (IHs data Hd) as (Hne & b & a & -> & Hb).
      split; [exact Hne|]. exists (None :: b), a. split; [reflexivity|].
      intros d [H|Hin]; [discriminate|auto].
    + rewrite IHn. split; [intros H d [H'|Hin]; [discriminate|auto]|auto].
Qed.

End ServiceFacts.

(** ** The workflow state machine, further *)

Module AppFacts.

(** X10.  The stages that each handler can lead to: the initial submission
    ends in [CLARIFYING], [PREVIEW] or [SETUP]; the clarifications in
    [PREVIEW] or [SETUP], or change nothing; confirming the profile in
    [GUIDE_INPUT]; guide generation in [GUIDE_REVIEW] or the stage it started
    in; confirming the guide in [MODE_SELECTION]; starting the interview in
    [INTERVIEW] or the stage it started in; ending it in [SUMMARY] or
    [INTERVIEW], or changes nothing; a reset in [SETUP]. *)
Theorem handler_targets (svc : App.Services) (s : App.State) (a : App.Action) :
  let s' := App.after svc s a in
  match a with
  | App.InitialSubmit _ =>
      App.step s' = CLARIFYING \/ App.step s' = PREVIEW \/ App.step s' = SETUP
  | App.ClarificationSubmit _ =>
      App.step s' = PREVIEW \/ App.step s' = SETUP \/ s' = s
  | App.ConfirmProfile => App.step s' = GUIDE_INPUT
  | App.GenerateGuide _ _ =>
      App.step s' = GUIDE_REVIEW \/ App.step s' = App.step s
  | App.ConfirmGuide _ => App.step s' = MODE_SELECTION
  | App.StartInterview _ =>
      App.step s' = INTERVIEW \/ App.step s' = App.step s
  | App.SwitchToManual => App.step s' = App.step s
  | App.EndSession _ =>
      App.step s' = SUMMARY \/ App.step s' = INTERVIEW \/ s' = s
  | App.Reset => App.step s' = SETUP
  end.
Proof.
  destruct a; run_handler; case_answers; auto.
Qed.

(** X11.  No handler leaves the application on the loading card or with the
    guide button disabled: in every state between two handlers the stage is
    not [RESEARCHING] and the loading flag of the guide is off. *)
Theorem never_left_busy (s : App.State) :
  App.reachable s ->
  App.step s <> RESEARCHING /\ App.isLoadingGuide s = false.
Proof.
  induction 1 as [|svc s a _ [IHs IHl]].
  - split; [discriminate|reflexivity].
  - destruct a; run_handler; case_answers; split;
      solve [discriminate | reflexivity | assumption | congruence].
Qed.

Lemma never_left_busy_witness :
  App.step Demo.atSummary <> RESEARCHING.
Proof.
  refine (proj1 (never_left_busy Demo.atSummary _)).
  unfold Demo.atSummary, Demo.atInterview. cbv zeta.
  repeat apply App.reachable_after. apply App.reachable_initial.
Defined.

(** X12.  An error message, once shown, stays until the next initial
    submission or reset: every other handler leaves an error in place or
    replaces it by its own, also when it succeeds. *)
Theorem error_is_sticky (svc : App.Services) (s : App.State) (a : App.Action) :
  App.error s <> None ->
  (forall inputConfig, a <> App.InitialSubmit inputConfig) ->
  a <> App.Reset ->
  App.error (App.after svc s a) <> None.
Proof.
  intros Herr Hsubmit Hreset.
  destruct a; try (now destruct (Hsubmit inputConfig)); try congruence;
    run_handler; case_answers; solve [discriminate | assumption].
Qed.

Lemma error_is_sticky_witness :
  App.error
    (App.after Demo.healthy
       (App.after Demo.personaDown App.initial (App.InitialSubmit Demo.config))
       App.ConfirmProfile) <> None.
Proof.
  apply error_is_sticky; discriminate.
Defined.

(** X13.  Only a reset discards the persona or the configuration: after any
    other handler a persona that was there is still there (possibly a newer
    one), and so is a configuration. *)
Theorem only_reset_discards (svc : App.Services) (s : App.State) (a : App.Action) :
  a <> App.Reset ->
  (App.persona s <> None -> App.persona (App.after svc s a) <> None) /\
  (App.config s <> None -> App.config (App.after svc s a) <> None).
Proof.
  intros Hreset.
  destruct a; try congruence; run_handler; case_answers; split;
    solve [intros _; discriminate | auto | congruence].
Qed.

Lemma only_reset_discards_witness :
  App.persona
    (App.after Demo.healthy Demo.atInterview (App.EndSession Demo.transcript))
    <> None.
Proof.
  refine (proj1 (only_reset_discards Demo.healthy Demo.atInterview
                   (App.EndSession Demo.transcript) _) _); discriminate.
Defined.

End AppFacts.

(** ** What is on screen *)

Module RenderFacts.



End RenderFacts.

(** ** The forms *)

Module FormFacts.


Lemma isComplete_iff (answers : list string) :
  ClarificationForm.isComplete answers = true <->
  forall a, In a answers -> a <> "".
Proof.
  unfold ClarificationForm.isComplete. rewrite forallb_forall.
  split; intros H a Hin; specialize (H a Hin); destruct a;
    cbn in *; congruence.
Qed.

(** X15.  A click on the button of the clarification form with an unanswered
    question does nothing: no service is called and the application state is
    unchanged. *)
Theorem incomplete_click_does_nothing (svc : App.Services) (s : App.State)
    (answers : list string) :
  In "" answers ->
  App.run s (fun s => ClarificationForm.click s answers) = (s, []).
Proof.
  intros Hin. unfold App.run, ClarificationForm.click.
  destruct (ClarificationForm.isComplete answers) eqn:Hc; [|reflexivity].
  now destruct (proj1 (isComplete_iff answers) Hc "" Hin).
Qed.

Lemma incomplete_click_does_nothing_witness :
  @App.run Sample.atClarifying
    (fun s => @ClarificationForm.click Demo.healthy s ["18-22"; ""])
  = (Sample.atClarifying, []).
Proof.
  apply (incomplete_click_does_nothing Demo.healthy). cbn. auto.
Defined.

(** X16.  A click with every question answered asks for the persona exactly
    once, with the answers as clarifications and the materials of the stored
    configuration; on success the stage goes through [RESEARCHING] to
    [PREVIEW] and the persona and its sources are stored; on failure it goes
    back to [SETUP] with an error, the configuration being kept. *)
Theorem complete_click_generates_persona (svc : App.Services) (s : App.State)
    (answers : list string) (c : ResearchConfig) :
  App.config s = Some c ->
  (forall a, In a answers -> a <> "") ->
  let s' := fst (App.run s (fun s => ClarificationForm.click s answers)) in
  let log := snd (App.run s (fun s => ClarificationForm.click s answers)) in
  App.config s' = Some c /\
  match App.generatePersonaProfile (industry c) (targetAudience c) answers
          (App.or_empty (referenceMaterials c)) with
  | Ok (profile, fetchedSources) =>
      log = [App.Entered RESEARCHING;
             App.CalledGeneratePersonaProfile (industry c) (targetAudience c)
               answers (App.or_empty (referenceMaterials c));
             App.Entered PREVIEW] /\
      App.persona s' = Some profile /\ App.sources s' = fetchedSources
  | Err e =>
      log = [App.Entered RESEARCHING;
             App.CalledGeneratePersonaProfile (industry c) (targetAudience c)
               answers (App.or_empty (referenceMaterials c));
             App.Entered SETUP] /\
      App.error s' = Some "生成画像失败，请重试。"
  end.
Proof.
  intros Hc Hall. apply (proj2 (isComplete_iff answers)) in Hall.
  unfold ClarificationForm.click. rewrite Hall. run_handler. rewrite Hc.
  destruct (App.generatePersonaProfile _ _ _ _) as [[profile src]|e]; cbn;
    auto.
Qed.

Lemma complete_click_generates_persona_witness :
  App.step
    (fst (@App.run Sample.atClarifying
            (fun s => @ClarificationForm.click Demo.healthy s ["18-22"; "500 以下"])))
  = PREVIEW.
Proof.
  pose proof (complete_click_generates_persona Demo.healthy Sample.atClarifying
                ["18-22"; "500 以下"] Demo.config eq_refl) as H.
  assert (Hall : forall a, In a ["18-22"; "500 以下"] -> a <> "").
  { intros a [<-|[<-|[]]]; discriminate. }
  specialize (H Hall). cbv zeta in H. destruct H as [_ H].
  change (App.generatePersonaProfile (industry Demo.config)
            (targetAudience Demo.config) ["18-22"; "500 以下"]
            (App.or_empty (referenceMaterials Demo.config)))
    with (@Ok (PersonaProfile * list GroundingSource) (Demo.profile, [])) in H.
  destruct H as (_ & Hp & _). revert Hp. vm_compute. intros _. reflexivity.
Defined.

(** The answers after a run of selections. *)
Lemma selections_invariant (questions : list ClarifyingQuestion)
    (sels : list (nat * string)) :
  let answers :=
    fold_left (fun a sel => ClarificationForm.handleOptionSelect a (fst sel) (snd sel))
      sels (ClarificationForm.initial questions) in
  List.length answers = List.length questions /\
  forall i a, answers !! i = Some a -> a = "" \/ In (i, a) sels.
Proof.
  cbv zeta. induction sels as [|[j o] sels IH] using rev_ind.
  - cbn. unfold ClarificationForm.initial. split; [apply length_replicate|].
    intros i a Hi. left. apply lookup_replicate in Hi. tauto.
  - rewrite fold_left_app. cbn. destruct IH as [IHl IHa].
    set (prev := fold_left _ sels _) in *.
    split; [now rewrite length_insert|].
    intros i a Hi. destruct (decide (j = i)) as [->|Hne].
    + destruct (decide (i < List.length prev)%nat) as [Hlt|Hge].
      * rewrite list_lookup_insert_eq in Hi by exact Hlt.
        injection Hi as <-. right. apply in_or_app. right. now left.
      * rewrite list_insert_ge in Hi by lia.
        destruct (IHa i a Hi) as [?|?]; [now left|right].
        apply in_or_app. now left.
    + rewrite list_lookup_insert_ne in Hi by exact Hne.
      destruct (IHa i a Hi) as [?|?]; [now left|right].
      apply in_or_app. now left.
Qed.

(** X17.  The clarification form keeps one answer per question, and it lets a
    submission through only when, for every question, the user has selected an
    option that is not empty: the answer submitted for a question is an option
    selected for it. *)
Theorem submission_needs_every_answer (questions : list ClarifyingQuestion)
    (sels : list (nat * string)) :
  let answers :=
    fold_left (fun a sel => ClarificationForm.handleOptionSelect a (fst sel) (snd sel))
      sels (ClarificationForm.initial questions) in
  List.length answers = List.length questions /\
  (ClarificationForm.isComplete answers = true ->
   forall i, (i < List.length questions)%nat ->
     exists o, answers !! i = Some o /\ o <> "" /\ In (i, o) sels).
Proof.
  cbv zeta. destruct (selections_invariant questions sels) as [Hlen Hsel].
  cbv zeta in Hlen, Hsel. split; [exact Hlen|].
  intros Hc i Hi. pose proof (proj1 (isComplete_iff _) Hc) as Hall.
  rewrite <- Hlen in Hi. apply lookup_lt_is_Some_2 in Hi as [o Ho].
  exists o. split; [exact Ho|].
  assert (Hne : o <> "") by (apply Hall; eapply lookup_In; exact Ho).
  split; [exact Hne|]. destruct (Hsel i o Ho); [congruence|assumption].
Qed.

(** X18.  The setup form rejects a submission locally when the industry or
    the audience is empty or white space: no service is called and the
    application state is unchanged. *)
Theorem blank_form_is_rejected (svc : App.Services) (s : App.State)
    (form : SetupForm.State) :
  whitespace_only (SetupForm.industry form) \/
  whitespace_only (SetupForm.targetAudience form) ->
  App.run s (fun _ => SetupForm.submit form) = (s, []).
Proof.
  intros Hblank. unfold App.run, SetupForm.submit, SetupForm.handleSubmit.
  destruct Hblank as [H|H]; apply trim_whitespace_only in H; rewrite H; cbn;
    [reflexivity|].
  now rewrite andb_false_r.
Qed.

Lemma blank_form_is_rejected_witness :
  @App.run App.initial (fun _ => @SetupForm.submit Demo.healthy Sample.blankForm)
  = (App.initial, []).
Proof.
  apply (blank_form_is_rejected Demo.healthy). right.
  apply Blank_1; [reflexivity|]. apply Blank_1; [reflexivity|]. apply Blank_nil.
Defined.

(** X19.  A submission that the setup form lets through hands on the texts as
    they were typed, not trimmed, together with the list of materials: the
    configuration is stored with them and requirement analysis is called with
    the untrimmed industry and audience. *)
Theorem submitted_form_is_untrimmed (svc : App.Services) (s : App.State)
    (form : SetupForm.State) :
  ~ whitespace_only (SetupForm.industry form) ->
  ~ whitespace_only (SetupForm.targetAudience form) ->
  let s' := fst (App.run s (fun _ => SetupForm.submit form)) in
  let log := snd (App.run s (fun _ => SetupForm.submit form)) in
  (exists c, App.config s' = Some c /\
     industry c = SetupForm.industry form /\
     targetAudience c = SetupForm.targetAudience form /\
     referenceMaterials c = Some (SetupForm.materials form)) /\
  firstn 2 log =
    [App.Entered RESEARCHING;
     App.CalledAnalyzeRequirements (SetupForm.industry form)
       (SetupForm.targetAudience form)].
Proof.
  intros Hi Ha. rewrite <- trim_empty_iff in Hi, Ha.
  unfold SetupForm.submit, SetupForm.handleSubmit.
  destruct (String.eqb_spec (trim (SetupForm.industry form)) "");
    [contradiction|].
  destruct (String.eqb_spec (trim (SetupForm.targetAudience form)) "");
    [contradiction|].
  cbn [negb andb]. run_handler. cbn.
  case_answers; (split; [eexists; split; [reflexivity|auto]|reflexivity]).
Qed.

Lemma submitted_form_is_untrimmed_witness :
  exists c,
    App.config
      (fst (@App.run App.initial
              (fun _ => @SetupForm.submit Demo.healthy Sample.form))) = Some c /\
    industry c = " 咖啡机".
Proof.
  destruct (submitted_form_is_untrimmed Demo.healthy App.initial Sample.form)
    as [(c & Hc & Hi & _) _].
  - intros H. apply trim_empty_iff in H. discriminate H.
  - intros H. apply trim_empty_iff in H. discriminate H.
  - exists c. split; [exact Hc|exact Hi].
Defined.

Lemma setMaterials_same (s : SetupForm.State) :
  SetupForm.setMaterials (SetupForm.materials s) s = s.
Proof. now destruct s. Qed.

(** X20.  Removing a material removes every entry that has the identifier and
    nothing else, keeps the order of the others, and removing again changes
    nothing. *)
Theorem removeMaterial_spec (target : string) (s : SetupForm.State) :
  let s' := SetupForm.removeMaterial target s in
  (forall m, In m (SetupForm.materials s') <->
             In m (SetupForm.materials s) /\ id m <> target) /\
  sublist (SetupForm.materials s') (SetupForm.materials s) /\
  SetupForm.removeMaterial target s' = s'.
Proof.
  cbv zeta. unfold SetupForm.removeMaterial, SetupForm.setMaterials. cbn.
  split; [|split].
  - intros m. rewrite filter_In.
    destruct (String.eqb_spec (id m) target); cbn; intuition congruence.
  - induction (SetupForm.materials s) as [|m l IH]; cbn; [constructor|].
    destruct (negb _); now constructor.
  - f_equal. induction (SetupForm.materials s) as [|m l IH]; cbn; [reflexivity|].
    destruct (negb (String.eqb (id m) target)) eqn:E; cbn; [|exact IH].
    rewrite E. now f_equal.
Qed.

Lemma dateString_inj (a b : Z) :
  SetupForm.dateString a = SetupForm.dateString b -> a = b.
Proof.
  unfold SetupForm.dateString. intros H.
  assert (Hnn : forall z, NilZero.int_of_string
                            (NilZero.string_of_int (Z.to_int z))
                          = Some (Z.to_int z)).
  { intros z. apply NilZero.isi; destruct z; cbn; try discriminate;
      intros [= E]; now apply Unsigned.to_uint_nonnil in E. }
  apply DecimalZ.to_int_inj.
  pose proof (f_equal NilZero.int_of_string H) as H'.
  rewrite !Hnn in H'. now injection H'.
Qed.

(** X21.  Adding a link and then removing it gives back the form as it was,
    when every other material was created at another millisecond: the
    identifiers, the decimal strings of the creation times, are then
    different. *)
Theorem add_then_remove_link (url : string) (now : Z) (s : SetupForm.State) :
  url <> "" ->
  (forall m, In m (SetupForm.materials s) ->
     exists t, id m = SetupForm.dateString t /\ t <> now) ->
  SetupForm.removeMaterial (SetupForm.dateString now)
    (SetupForm.handleAddLink (Some url) now s) = s.
Proof.
  intros Hurl Hold. unfold SetupForm.handleAddLink.
  destruct url as [|c url]; [congruence|].
  unfold SetupForm.removeMaterial. cbn.
  rewrite List.filter_app. cbn. rewrite String.eqb_refl. cbn.
  rewrite app_nil_r.
  assert (Hkeep : List.filter
                    (fun m => negb (String.eqb (id m) (SetupForm.dateString now)))
                    (SetupForm.materials s) = SetupForm.materials s).
  { induction (SetupForm.materials s) as [|m l IH]; cbn; [reflexivity|].
    destruct (Hold m (or_introl eq_refl)) as (t & Hid & Ht).
    destruct (String.eqb_spec (id m) (SetupForm.dateString now)) as [E|_].
    - rewrite Hid in E. apply dateString_inj in E. contradiction.
    - cbn. f_equal. apply IH. intros m' Hin. apply Hold. now right. }
  rewrite Hkeep. now destruct s.
Qed.

Lemma add_then_remove_link_witness :
  SetupForm.removeMaterial (SetupForm.dateString 1700000000001)
    (SetupForm.handleAddLink (Some "一段文字") 1700000000001 Sample.form)
  = Sample.form.
Proof.
  apply add_then_remove_link; [discriminate|].
  intros m [<-|[]]. exists 1700000000000. split; [reflexivity|lia].
Defined.

Lemma edits_keep_reading (edits : list SetupForm.Edit) : forall s,
  SetupForm.reading (fold_left SetupForm.edit edits s) = SetupForm.reading s.
Proof.
  induction edits as [|e edits IH]; intros s; cbn; [reflexivity|].
  rewrite IH. destruct e as [[[|c url]|] now|target]; reflexivity.
Qed.

(** X22.  A file read overwrites what happened to the list in the meantime:
    when the read of a file ends, the list becomes the one of the moment the
    file was selected plus the file, whatever links were added and whatever
    materials were removed while the file was read. *)
Theorem file_read_overwrites_edits (s s3 : SetupForm.State)
    (file : SetupForm.File) (edits : list SetupForm.Edit) (result : string)
    (now : Z) :
  let s1 := SetupForm.handleFileUpload (Some file) s in
  let s2 := fold_left SetupForm.edit edits s1 in
  SetupForm.onload (List.length (SetupForm.reading s)) result now s2 = Some s3 ->
  exists base64String,
    SetupForm.secondField result = Some base64String /\
    SetupForm.materials s3 =
      (SetupForm.materials s ++
       [{| id := SetupForm.dateString now; type := MatFile;
           mat_name := SetupForm.file_name file;
           mimeType := Some (SetupForm.file_type file);
           content := base64String |}])%list /\
    SetupForm.reading s3 = SetupForm.reading s.
Proof.
  cbv zeta. unfold SetupForm.onload. rewrite edits_keep_reading. cbn.
  rewrite list_lookup_middle by reflexivity. cbn.
  destruct (SetupForm.secondField result) as [b|]; [|discriminate]. cbn.
  intros [= <-]. exists b. cbn. split; [reflexivity|]. split; [reflexivity|].
  rewrite delete_middle. apply app_nil_r.
Qed.

Lemma file_read_overwrites_edits_witness :
  exists base64String,
    SetupForm.secondField "data:application/pdf;base64,JVBERi0x"
      = Some base64String.
Proof.
  destruct (file_read_overwrites_edits SetupForm.initial _
              {| SetupForm.file_name := "r.pdf";
                 SetupForm.file_type := "application/pdf" |}
              [SetupForm.AddLink (Some "https://example.org/b") 1700000000003]
              "data:application/pdf;base64,JVBERi0x" 1700000000005 eq_refl)
    as (b & Hb & _).
  exists b. exact Hb.
Defined.

(** ** Guide review, further *)

Lemma confirmed_as_filter (questions : list string) :
  GuideReview.confirmed questions =
  List.filter (fun q => negb (String.eqb (trim q) "")) questions.
Proof.
  unfold GuideReview.confirmed. apply filter_ext. intros q.
  apply nonempty_after_trim.
Qed.

(** X23.  What the confirmation keeps is stable: confirming a confirmed guide
    changes nothing, a guide without blank entries is kept whole, and an
    entry added with the add button and left empty does not show in the
    confirmed guide. *)
Theorem confirmed_is_stable (questions : list string) :
  GuideReview.confirmed (GuideReview.confirmed questions)
    = GuideReview.confirmed questions /\
  ((forall q, In q questions -> ~ whitespace_only q) ->
   GuideReview.confirmed questions = questions) /\
  GuideReview.confirmed (GuideReview.handleAdd questions)
    = GuideReview.confirmed questions.
Proof.
  rewrite !confirmed_as_filter. split; [|split].
  - induction questions as [|q l IH]; cbn; [reflexivity|].
    destruct (negb (String.eqb (trim q) "")) eqn:E; cbn; [|exact IH].
    rewrite E. now f_equal.
  - intros Hall. induction questions as [|q l IH]; cbn; [reflexivity|].
    destruct (String.eqb_spec (trim q) "") as [E|_]; cbn.
    + apply trim_empty_iff in E. now destruct (Hall q (or_introl eq_refl)).
    + f_equal. apply IH. intros q' Hin. apply Hall. now right.
  - unfold GuideReview.handleAdd. rewrite List.filter_app. cbn.
    apply app_nil_r.
Qed.

Lemma filter_insert_delete {A : Type} (f : A -> bool) (v : A) (l : list A) :
  forall i, f v = false ->
  List.filter f (<[i := v]> l) = List.filter f (delete i l).
Proof.
  induction l as [|x l IH]; intros [|i] Hv; try reflexivity.
  - cbn. now rewrite Hv.
  - change (List.filter f (x :: <[i := v]> l)
            = List.filter f (x :: delete i l)).
    cbn [List.filter]. now rewrite (IH i Hv).
Qed.

(** X24.  For the confirmed guide, blanking a question is the same as deleting
    it: after an edit of an entry to white space the confirmation gives what it
    gives after the deletion of that entry. *)
Theorem blanking_is_deleting (questions : list string) (idx : nat)
    (newVal : string) :
  (idx < List.length questions)%nat ->
  whitespace_only newVal ->
  GuideReview.confirmed (GuideReview.handleEdit questions idx newVal) =
  GuideReview.confirmed (GuideReview.handleDelete questions idx).
Proof.
  intros _ Hws. rewrite !confirmed_as_filter.
  apply filter_insert_delete. now rewrite (trim_whitespace_only _ Hws).
Qed.

Lemma blanking_is_deleting_witness :
  GuideReview.confirmed (GuideReview.handleEdit ["q1"; "q2"; "q3"] 1 " ")
  = ["q1"; "q3"].
Proof.
  rewrite (blanking_is_deleting ["q1"; "q2"; "q3"] 1 " ").
  - reflexivity.
  - cbn. lia.
  - apply Blank_1; [reflexivity|]. apply Blank_nil.
Defined.

End FormFacts.

(** ** The interview turn loop, further *)

Module LoopFacts.
Import ChatInterface Measure.

Section Component.
Context (guide : list string) (profile : PersonaProfile).

(** X25.  Within an interview the mode never goes back to automated: after a
    switch to manual, whatever happens, the mode is manual. *)
Theorem manual_forever (evs : list Event) : forall (s s' : State),
  mode s = MANUAL ->
  steps guide profile s evs = Some s' ->
  mode s' = MANUAL.
Proof.
  induction evs as [|ev evs IH]; intros s s' Hm Hsteps; cbn in Hsteps.
  - now injection Hsteps as <-.
  - destruct (step guide profile s ev) as [s1|] eqn:Hstep; [|discriminate].
    cbn in Hsteps. apply (IH s1 s'); [|exact Hsteps].
    exact (step_manual guide profile s s1 ev Hstep Hm).
Qed.

(** X26.  While the mode is automated at most one continuation is suspended:
    no two moderator turns and no two chat requests are in flight together,
    and a moderator call in flight was made on the current transcript, with
    the guide and the persona of the component, while the persona is not
    typing. *)
Theorem auto_mode_single_flight (s : State) :
  reachable guide profile s ->
  mode s = AUTO ->
  (List.length (pending s) <= 1)%nat /\
  forall history g p,
    In (AwaitModerator history g p) (pending s) ->
    history = messages s /\ g = guide /\ p = profile /\ isTyping s = false.
Proof.
  intros Hreach Hm.
  destruct (reachable_invariant guide profile s Hreach) as [_ Ha].
  destruct (Ha Hm) as [H|H|H H1 H2|H H1 H2|q H H1|H]; rewrite H; cbn;
    (split; [lia|]); intros history g p Hin;
    repeat (destruct Hin as [Hin|Hin]); try discriminate; try contradiction.
  injection Hin as <- <- <-. auto.
Qed.

Lemma takesTurns_snoc (l : list ChatMessage) (m' m : ChatMessage) :
  takesTurns l = true -> last l = Some m' -> role m' <> role m ->
  takesTurns (l ++ [m]) = true.
Proof.
  induction l as [|x l IH]; [discriminate|].
  destruct l as [|y l].
  - cbn. intros _ [= ->] Hne. rewrite bool_decide_eq_false_2 by exact Hne.
    reflexivity.
  - intros Ht Hl Hne. change (takesTurns (x :: y :: l ++ [m]) = true).
    cbn [takesTurns] in *. apply andb_true_iff in Ht as [Hxy Ht].
    rewrite Hxy. cbn [andb]. apply IH; assumption.
Qed.

Lemma autoTranscript_snoc (l : list ChatMessage) (m' m : ChatMessage) :
  autoTranscript l = true -> last l = Some m' -> role m' <> role m ->
  moderated m = true ->
  autoTranscript (l ++ [m]) = true.
Proof.
  unfold autoTranscript. intros H Hl Hne Hmod.
  apply andb_true_iff in H as [H Ht]. apply andb_true_iff in H as [Hh Hf].
  rewrite forallb_app, Hf. cbn [forallb]. rewrite Hmod.
  rewrite (takesTurns_snoc l m' m Ht Hl Hne).
  destruct l as [|x l]; [discriminate|]. cbn [app]. now rewrite Hh.
Qed.

Lemma rerender_reply (old new : State) (q : string) :
  pending (rerender old new) = [AwaitPersonaReply q] ->
  pending new = [AwaitPersonaReply q].
Proof.
  destruct (rerender_cases old new) as [->|(_ & _ & _ & _ & ->)]; [auto|].
  cbn. intros H. destruct (pending new) as [|t [|t' l]]; discriminate.
Qed.

Lemma autoInvariant_step (s s' : State) (ev : Event) :
  invariant guide profile s -> autoInvariant s ->
  step guide profile s ev = Some s' ->
  autoInvariant s'.
Proof.
  intros [Hg Ha] Hinv Hstep. apply step_inv in Hstep as (s1 & Hreact & ->).
  intros Hm1. rewrite rerender_mode in Hm1. rewrite rerender_messages.
  assert (Hm : mode s = AUTO).
  { destruct (mode s) eqn:E; [|reflexivity].
    rewrite (react_manual guide profile s s1 ev Hreact E) in Hm1.
    discriminate. }
  destruct (Hinv Hm) as [Ht Hq]. specialize (Ha Hm).
  assert (Hkeep : messages s1 = messages s ->
                  (forall q, pending s1 = [AwaitPersonaReply q] ->
                             pending s = [AwaitPersonaReply q]) ->
                  autoTranscript (messages s1) = true /\
                  forall q, pending (rerender s s1) = [AwaitPersonaReply q] ->
                    exists m, last (messages s1) = Some m /\ role m = user).
  { intros Hmsg Hp. rewrite Hmsg. split; [exact Ht|].
    intros q Hq1. apply rerender_reply in Hq1. exact (Hq q (Hp q Hq1)). }
  destruct ev; cbn in Hreact.
  - injection Hreact as <-. apply Hkeep; auto.
  - injection Hreact as <-.
    destruct (handleManualSend_auto s now Hm) as [Hr|Hr]; [|congruence].
    rewrite Hr in *. apply Hkeep; auto.
  - injection Hreact as <-. discriminate Hm1.
  - destruct Ha as [H|H|H H1 H2|H H1 H2|q0 H H1|H]; rewrite H in Hreact;
      try (destruct i as [|[|i]]); cbn in Hreact; try discriminate;
      injection Hreact as <-; apply Hkeep; try reflexivity; cbn;
      rewrite H; discriminate.
  - destruct Ha as [H|H|H H1 H2|H H1 H2|q0 H H1|H]; rewrite H in Hreact;
      try (destruct i as [|[|i]]); cbn in Hreact; try discriminate;
      destruct r as [response_text|e]; try discriminate;
      injection Hreact as <-.
    + split; [reflexivity|]. intros q Hq1. apply rerender_reply in Hq1.
      cbn in Hq1. rewrite H in Hq1. discriminate.
    + apply Hkeep; [reflexivity|]. cbn. rewrite H. discriminate.
    + destruct (Hq q0 H) as (m & Hl & Hr). split.
      * cbn. apply (autoTranscript_snoc _ m); auto. cbn. congruence.
      * intros q Hq1. apply rerender_reply in Hq1.
        cbn in Hq1. rewrite H in Hq1. discriminate.
    + unfold moderatorCatch in *. destruct (isRateLimit429 e);
        (apply Hkeep; [reflexivity|]); cbn; rewrite H; discriminate.
  - destruct Ha as [H|H|H H1 H2|H H1 H2|q0 H H1|H]; rewrite H in Hreact;
      try (destruct i as [|[|i]]); cbn in Hreact; try discriminate.
    destruct (getAIInterviewerNextQuestion _ _ _ _) as [[q|]|e];
      try destruct (String.eqb q ""); injection Hreact as <-;
      try discriminate Hm1.
    + destruct H2 as (m & Hl & Hr). split.
      * cbn. apply (autoTranscript_snoc _ m); auto. cbn. congruence.
      * intros q' _. cbn. rewrite last_snoc. eauto.
    + unfold moderatorCatch in *. destruct (isRateLimit429 e);
        (apply Hkeep; [reflexivity|]); cbn; rewrite H; discriminate.
Qed.

(** X27.  While the mode is automated the transcript is one of an automated
    interview: the persona opens it, persona and moderator take turns (never
    two messages in a row by the same speaker), and every question is flagged
    as asked by the automated moderator. *)
Theorem auto_transcript_takes_turns (s : State) :
  reachable guide profile s ->
  mode s = AUTO ->
  autoTranscript (messages s) = true.
Proof.
  intros Hreach.
  assert (H : autoInvariant s).
  { induction Hreach as [m|s s' ev Hreach IH Hstep].
    - intros _. unfold mount. rewrite rerender_messages.
      split; [reflexivity|]. intros q Hq. apply rerender_reply in Hq.
      discriminate Hq.
    - eapply autoInvariant_step; [|exact IH|exact Hstep].
      now apply reachable_invariant. }
  intros Hm. exact (proj1 (H Hm)).
Qed.

Lemma str_or_nonempty (t : option string) (d : string) :
  d <> "" -> str_or t d <> "".
Proof.
  intros Hd. destruct t as [[|c t]|]; cbn; [exact Hd|discriminate|exact Hd].
Qed.

Lemma react_no_empty_message (s s1 : State) (ev : Event) :
  react guide profile s ev = Some s1 ->
  Forall (fun m => text m <> "") (messages s) ->
  Forall (fun m => text m <> "") (messages s1).
Proof.
  intros Hreact HF. destruct ev; cbn in Hreact.
  - now injection Hreact as <-.
  - injection Hreact as <-. unfold handleManualSend.
    destruct (String.eqb (trim (input s)) "") eqn:E; [exact HF|].
    destruct (isTyping s); [exact HF|]. cbn.
    apply Forall_app. split; [destruct (mode s); exact HF|].
    repeat constructor. cbn. now apply String.eqb_neq.
  - now injection Hreact as <-.
  - destruct (pending s !! i) as [t|]; [|discriminate].
    destruct t; cbn in Hreact; try discriminate.
    all: now injection Hreact as <-.
  - destruct (pending s !! i) as [t|]; [|discriminate].
    destruct t, r as [response_text|e]; cbn in Hreact; try discriminate.
    all: injection Hreact as <-; try exact HF.
    all: try (unfold moderatorCatch; destruct (isRateLimit429 e); exact HF).
    all: cbn; try apply Forall_app; try (split; [exact HF|]).
    all: repeat constructor; cbn; try discriminate.
    all: apply str_or_nonempty; discriminate.
  - destruct (pending s !! i) as [t|]; [|discriminate].
    destruct t; cbn in Hreact; try discriminate.
    destruct (getAIInterviewerNextQuestion _ _ _ _) as [[q|]|e];
      try destruct (String.eqb q "") eqn:E; injection Hreact as <-;
      try exact HF.
    + cbn. apply Forall_app. split; [exact HF|].
      repeat constructor. cbn. now apply String.eqb_neq.
    + unfold moderatorCatch; destruct (isRateLimit429 e); exact HF.
Qed.

(** X28.  No message of the transcript has an empty text: the chat sends
    only trimmed input that is not empty, a moderator question that is empty
    ends the interview instead of being asked, and a reply without text is
    replaced by a placeholder. *)
Theorem no_empty_message (s : State) :
  reachable guide profile s ->
  Forall (fun m => text m <> "") (messages s).
Proof.
  induction 1 as [m|s s' ev Hreach IH Hstep].
  - unfold mount. rewrite rerender_messages. constructor.
  - apply step_inv in Hstep as (s1 & Hreact & ->).
    rewrite rerender_messages. eauto using react_no_empty_message.
Qed.

(** X29.  When the greeting request fails, the error is swallowed and the
    greeting is not requested again: as long as the transcript stays empty,
    that is, until the user sends a first message, no request and no timer is
    in flight, in either mode. *)
Theorem failed_greeting_is_not_retried (s s' : State) (i : nat)
    (e : JsError) (now : Z) (evs : list Event) :
  reachable guide profile s ->
  pending s !! i = Some AwaitGreeting ->
  steps guide profile s (ChatReplied i (Err e) now :: evs) = Some s' ->
  messages s' = [] ->
  pending s' = [].
Proof.
  intros Hreach Hi Hsteps Hempty. cbn [steps] in Hsteps.
  destruct (step guide profile s (ChatReplied i (Err e) now)) as [s1|] eqn:Hstep;
    [|discriminate].
  cbn [mbind option_bind] in Hsteps.
  destruct (reachable_invariant guide profile s Hreach) as [Hg _].
  destruct (Hg (lookup_In _ _ _ Hi)) as (Hp & Hmsg & Hty).
  rewrite Hp in Hi. apply singleton_lookup in Hi as [-> _].
  assert (Hs1 : messages s1 = [] /\ pending s1 = []).
  { destruct (step_inv guide profile s s1 _ Hstep) as (s2 & Hreact & Hs1).
    unfold react in Hreact. rewrite Hp in Hreact. cbn in Hreact.
    injection Hreact as <-. rewrite Hs1.
    match goal with
    | |- context [rerender ?a ?b] =>
        destruct (rerender_cases a b) as [->|(_ & _ & [m [Hl _]] & _)]
    end; cbn; [rewrite Hp; auto|].
    cbn in Hl. rewrite Hmsg in Hl. discriminate. }
  destruct Hs1 as [Hm1 Hp1].
  apply (quiescent_until_transcript_changes guide profile s1 evs s1 s').
  - exact (reachable_step guide profile s s1 _ Hreach Hstep).
  - reflexivity.
  - auto.
  - exact Hsteps.
  - congruence.
Qed.

Lemma stalled_step (history : list ChatMessage) (s s' : State) (ev : Event) :
  stalled history s -> step guide profile s ev = Some s' ->
  stalled history s'.
Proof.
  intros (Hmsg & Hty & Hp) Hstep.
  apply step_inv in Hstep as (s1 & Hreact & ->).
  assert (H1 : stalled history s1).
  { destruct ev; cbn in Hreact.
    - injection Hreact as <-. repeat split; auto.
    - injection Hreact as <-. unfold handleManualSend. rewrite Hty.
      rewrite orb_true_r. repeat split; auto.
    - injection Hreact as <-. repeat split; auto.
    - destruct Hp as [Hp|Hp]; rewrite Hp in Hreact;
        try (destruct i as [|[|i]]); cbn in Hreact; try discriminate.
      injection Hreact as <-. cbn. rewrite Hp. repeat split; auto.
    - destruct Hp as [Hp|Hp]; rewrite Hp in Hreact;
        try (destruct i as [|[|i]]); cbn in Hreact; discriminate.
    - destruct Hp as [Hp|Hp]; rewrite Hp in Hreact;
        try (destruct i as [|[|i]]); cbn in Hreact; discriminate. }
  rewrite rerender_typing; [exact H1|]. apply H1.
Qed.

(** X30.  When the chat call that follows a moderator question fails, the
    automated interview is stuck for good: the typing flag stays set, so the
    moderator effect and the send handler return at their guards, and no
    message is appended ever again, whatever the error and whatever the user
    does, a switch to manual included. *)
Theorem failed_persona_reply_blocks_chat (s s1 : State) (i : nat)
    (nextQuestion : string) (e : JsError) (now : Z) :
  reachable guide profile s ->
  mode s = AUTO ->
  pending s !! i = Some (AwaitPersonaReply nextQuestion) ->
  step guide profile s (ChatReplied i (Err e) now) = Some s1 ->
  forall (evs : list Event) (s' : State),
    steps guide profile s1 evs = Some s' ->
    messages s' = messages s /\ isTyping s' = true.
Proof.
  intros Hreach Hm Hi Hstep.
  assert (H1 : stalled (messages s) s1).
  { destruct (reachable_invariant guide profile s Hreach) as [_ Ha].
    destruct (Ha Hm) as [H|H|H H1 H2|H H1 H2|q H H1|H]; rewrite H in Hi;
      try (destruct i as [|[|i]]); cbn in Hi; try discriminate.
    apply step_inv in Hstep as (s2 & Hreact & ->).
    unfold react in Hreact. rewrite H in Hreact. cbn in Hreact.
    injection Hreact as <-.
    rewrite rerender_typing
      by (unfold moderatorCatch; destruct (isRateLimit429 e); exact H1).
    unfold stalled, moderatorCatch.
    destruct (isRateLimit429 e); cbn; rewrite H; cbn; auto. }
  clear Hstep. intros evs. revert s1 H1. induction evs as [|ev evs IH];
    intros s1 H1 s' Hsteps; cbn in Hsteps.
  - injection Hsteps as <-. split; apply H1.
  - destruct (step guide profile s1 ev) as [s2|] eqn:Hstep2; [|discriminate].
    cbn in Hsteps. apply (IH s2); [|exact Hsteps].
    exact (stalled_step _ s1 s2 ev H1 Hstep2).
Qed.

End Component.

Lemma manual_forever_witness :
  exists s',
    steps Demo.guide Demo.profile (mount MANUAL)
      [ChatReplied 0 (Ok None) 1; ChangeInput "您好"; Submit 2] = Some s' /\
    mode s' = MANUAL.
Proof.
  eexists. split; [reflexivity|].
  exact (manual_forever Demo.guide Demo.profile
           [ChatReplied 0 (Ok None) 1; ChangeInput "您好"; Submit 2]
           (mount MANUAL) _ eq_refl eq_refl).
Defined.

Lemma auto_mode_single_flight_witness :
  (List.length (pending Demo.moderatorAsked) <= 1)%nat /\
  forall history g p,
    In (AwaitModerator history g p) (pending Demo.moderatorAsked) ->
    history = messages Demo.moderatorAsked /\ g = Demo.guide /\
    p = Demo.profile /\ isTyping Demo.moderatorAsked = false.
Proof.
  exact (auto_mode_single_flight Demo.guide Demo.profile Demo.moderatorAsked
           moderatorAsked_reachable eq_refl).
Defined.

Lemma questionAsked_reachable :
  reachable Demo.guide Demo.profile Sample.questionAsked.
Proof.
  apply (reachable_step Demo.guide Demo.profile Demo.moderatorAsked _
           (ModeratorAnswered 0 Sample.backendProse 2)).
  - exact moderatorAsked_reachable.
  - reflexivity.
Qed.

Lemma auto_transcript_takes_turns_witness :
  mode Sample.questionAsked = AUTO /\
  autoTranscript (messages Sample.questionAsked) = true.
Proof.
  split; [reflexivity|].
  exact (auto_transcript_takes_turns Demo.guide Demo.profile
           Sample.questionAsked questionAsked_reachable eq_refl).
Defined.

Lemma no_empty_message_witness :
  Forall (fun m => text m <> "") (messages Sample.questionAsked).
Proof.
  exact (no_empty_message Demo.guide Demo.profile Sample.questionAsked
           questionAsked_reachable).
Defined.

Lemma failed_greeting_is_not_retried_witness :
  exists s',
    steps Demo.guide Demo.profile (mount AUTO)
      [ChatReplied 0 (Err Demo.serverError) 1; ChangeInput "您好";
       SwitchToManual] = Some s' /\
    pending s' = [].
Proof.
  eexists. split; [reflexivity|].
  exact (failed_greeting_is_not_retried Demo.guide Demo.profile
           (mount AUTO) _ 0 Demo.serverError 1 [ChangeInput "您好"; SwitchToManual]
           (reachable_mount Demo.guide Demo.profile AUTO)
           eq_refl eq_refl eq_refl).
Defined.

Lemma failed_persona_reply_blocks_chat_witness :
  exists s1 s',
    step Demo.guide Demo.profile Sample.questionAsked
      (ChatReplied 0 (Err Demo.serverError) 3) = Some s1 /\
    steps Demo.guide Demo.profile s1
      [SwitchToManual; ChangeInput "还在吗？"; Submit 4] = Some s' /\
    messages s' = messages Sample.questionAsked /\ isTyping s' = true.
Proof.
  eexists _, _. split; [reflexivity|]. split; [reflexivity|].
  exact (failed_persona_reply_blocks_chat Demo.guide Demo.profile
           Sample.questionAsked _ 0 _ Demo.serverError 3
           questionAsked_reachable eq_refl eq_refl eq_refl
           [SwitchToManual; ChangeInput "还在吗？"; Submit 4] _ eq_refl).
Defined.

End LoopFacts.

(** ** When a turn or the summary fails *)

Module FailureFacts.
Import ChatInterface.

Section Component.
Context (guide : list string) (profile : PersonaProfile).

(** With the typing flag set and nothing suspended, nothing happens any
    more. *)
Lemma typing_idle_step (s s' : State) (ev : Event) :
  isTyping s = true -> pending s = [] ->
  step guide profile s ev = Some s' ->
  isTyping s' = true /\ pending s' = [] /\ messages s' = messages s.
Proof.
  intros Hty Hp Hstep. apply step_inv in Hstep as (s1 & Hreact & ->).
  assert (H1 : isTyping s1 = true /\ pending s1 = [] /\
               messages s1 = messages s).
  { destruct ev; cbn in Hreact; try rewrite Hp in Hreact;
      try discriminate Hreact.
    - injection Hreact as <-. auto.
    - injection Hreact as <-. unfold handleManualSend.
      rewrite Hty, orb_true_r. auto.
    - injection Hreact as <-. auto. }
  rewrite rerender_typing; [exact H1|]. apply H1.
Qed.

Lemma typing_idle_steps (evs : list Event) : forall (s s' : State),
  isTyping s = true -> pending s = [] ->
  steps guide profile s evs = Some s' ->
  isTyping s' = true /\ pending s' = [] /\ messages s' = messages s.
Proof.
  induction evs as [|ev evs IH]; intros s s' Hty Hp Hsteps; cbn in Hsteps.
  - injection Hsteps as <-. auto.
  - destruct (step guide profile s ev) as [s1|] eqn:Hstep; [|discriminate].
    cbn in Hsteps.
    destruct (typing_idle_step s s1 ev Hty Hp Hstep) as (Hty1 & Hp1 & Hm1).
    destruct (IH s1 s' Hty1 Hp1 Hsteps) as (? & ? & ?).
    repeat split; congruence.
Qed.

(** C2.  The catch block of the moderator turn also receives a failure of
    the chat call that delivers the moderator's question to the persona.
    When that call fails with a rate-limit error, the loop waits for the
    cooldown of 5000 ms and increments the retry trigger, as the claim says;
    but the turn is not retried: the typing flag, set before the call, is
    still set, so the effect returns at its guard.  From then on nothing is
    suspended, no moderator call is made, and the transcript is the one with
    the unanswered question, whatever happens. *)
Theorem rate_limited_persona_reply_is_not_retried (s s1 : State) (i : nat)
    (nextQuestion : string) (e : JsError) (now : Z) :
  reachable guide profile s ->
  mode s = AUTO ->
  pending s !! i = Some (AwaitPersonaReply nextQuestion) ->
  isRateLimit429 e = true ->
  step guide profile s (ChatReplied i (Err e) now) = Some s1 ->
  pending s1 = [AwaitCooldown 5000] /\ messages s1 = messages s /\
  exists s2,
    step guide profile s1 (TimerFired 0) = Some s2 /\
    retryTrigger s2 = S (retryTrigger s) /\
    forall (evs : list Event) (s' : State),
      steps guide profile s2 evs = Some s' ->
      pending s' = [] /\ messages s' = messages s /\ isTyping s' = true.
Proof.
  intros Hreach Hm Hi Hrl Hstep.
  destruct (reachable_invariant guide profile s Hreach) as [_ Ha].
  destruct (Ha Hm) as [H|H|H H1 H2|H H1 H2|q H H1|H]; rewrite H in Hi;
    try (destruct i as [|[|i]]); cbn in Hi; try discriminate.
  apply step_inv in Hstep as (s0 & Hreact & ->).
  unfold react in Hreact. rewrite H in Hreact. cbn in Hreact.
  injection Hreact as <-. unfold moderatorCatch. rewrite Hrl, H.
  rewrite rerender_typing by exact H1.
  split; [reflexivity|]. split; [reflexivity|].
  eexists. split.
  - unfold step, react. cbn. rewrite rerender_typing by exact H1. reflexivity.
  - split; [cbn; lia|]. intros evs s' Hsteps.
    apply typing_idle_steps in Hsteps as (? & ? & ?); auto.
Qed.

End Component.

Lemma rate_limited_persona_reply_is_not_retried_witness :
  exists s1 s2 s',
    step Demo.guide Demo.profile Sample.questionAsked
      (ChatReplied 0 (Err Demo.rateLimited) 3) = Some s1 /\
    step Demo.guide Demo.profile s1 (TimerFired 0) = Some s2 /\
    steps Demo.guide Demo.profile s2 [TimerFired 0] = None /\
    steps Demo.guide Demo.profile s2 [SwitchToManual; ChangeInput "继续"; Submit 9]
      = Some s' /\
    pending s' = [] /\ messages s' = messages Sample.questionAsked.
Proof.
  destruct (rate_limited_persona_reply_is_not_retried Demo.guide Demo.profile
              Sample.questionAsked _ 0 _ Demo.rateLimited 3
              LoopFacts.questionAsked_reachable eq_refl eq_refl eq_refl eq_refl)
    as (_ & _ & s2 & Hs2 & _ & Hall).
  cbn in Hs2. injection Hs2 as <-.
  eexists _, _, _. split; [reflexivity|]. split; [reflexivity|].
  split; [reflexivity|]. split; [reflexivity|].
  destruct (Hall [SwitchToManual; ChangeInput "继续"; Submit 9] _ eq_refl)
    as (Hp & Hmsg & _).
  split; [exact Hp|exact Hmsg].
Defined.

Lemma mount_fresh (m : InterviewMode) :
  messages (mount m) = [] /\ pending (mount m) = [AwaitGreeting] /\
  isTyping (mount m) = true /\ mode (mount m) = m.
Proof.
  unfold mount. rewrite rerender_typing by reflexivity. cbn. auto.
Qed.

(** C4.  When summary generation fails, the handler has stored the transcript
    passed in, sets the error and sets the stage to [INTERVIEW] again; but
    the stage has been [RESEARCHING] in between, so the chat component is a
    new one: its transcript is empty and it asks the persona for a greeting
    again, whatever the transcript was.  The messages are no longer on the
    interview screen, and ending the interview again passes the transcript of
    the new component: the stored transcript becomes the empty one and the
    summary is asked for an empty transcript. *)
Theorem failed_summary_restarts_interview (svc svc' : App.Services)
    (p : Page.State) (c : State) (persona : PersonaProfile)
    (config : ResearchConfig) (session : App.Chat) (e : JsError) :
  App.step (Page.app p) = INTERVIEW ->
  App.persona (Page.app p) = Some persona ->
  App.config (Page.app p) = Some config ->
  App.chatSession (Page.app p) = Some session ->
  Page.chat p = Some c ->
  @App.generateInterviewSummary svc persona (industry config) (messages c)
    = Err e ->
  let p' := Page.endSession svc p in
  App.step (Page.app p') = INTERVIEW /\
  App.error (Page.app p') = Some "生成总结报告失败。" /\
  App.chatHistory (Page.app p') = messages c /\
  Page.chat p' = Some (mount (App.interviewMode (Page.app p))) /\
  (exists c', Page.chat p' = Some c' /\ messages c' = [] /\
     pending c' = [AwaitGreeting]) /\
  App.chatHistory (Page.app (Page.endSession svc' p')) = [] /\
  In (App.CalledGenerateInterviewSummary persona (industry config) [])
    (App.trace svc' (Page.app p') (App.EndSession [])).
Proof.
  intros Hstep Hp Hc Hs Hchat Hfail.
  destruct p as [s oc]. cbn in *. subst oc.
  unfold Page.endSession, Page.mounted, Page.leavesInterview, Render.screen.
  cbn [Page.chat Page.app].
  run_handler. rewrite Hp, Hc, Hfail. cbn. rewrite Hs, Hp, Hc. cbn.
  destruct (mount_fresh (App.interviewMode s)) as (Hm & Hpend & _).
  rewrite (bool_decide_eq_false_2 (RESEARCHING = INTERVIEW)) by discriminate.
  cbn. rewrite Hm.
  repeat split; try reflexivity.
  - eexists. split; [reflexivity|]. split; assumption.
  - destruct (@App.generateInterviewSummary svc' persona (industry config) []);
      reflexivity.
  - destruct (@App.generateInterviewSummary svc' persona (industry config) []);
      cbn; auto.
Qed.

Lemma failed_summary_restarts_interview_witness :
  messages Sample.questionAsked <> [] /\
  App.chatHistory (Page.app (Page.endSession Sample.summaryDown Sample.interviewPage))
    = messages Sample.questionAsked /\
  Page.chat (Page.endSession Sample.summaryDown Sample.interviewPage)
    = Some (mount AUTO) /\
  App.chatHistory
    (Page.app (Page.endSession Demo.healthy
                 (Page.endSession Sample.summaryDown Sample.interviewPage)))
    = [].
Proof.
  destruct (failed_summary_restarts_interview Sample.summaryDown Demo.healthy
              Sample.interviewPage Sample.questionAsked Demo.profile
              Demo.config
              {| App.chat_profile := Demo.profile; App.chat_industry := "咖啡机" |}
              Demo.serverError eq_refl eq_refl eq_refl eq_refl eq_refl eq_refl)
    as (_ & _ & Hh & Hc & _ & Hretry & _).
  split; [discriminate|]. split; [exact Hh|]. split; [exact Hc|exact Hretry].
Defined.

End FailureFacts.
